(** * The HighNodeUtilization strategy of the descheduler

    A shallow embedding of
    [pkg/descheduler/strategies/nodeutilization/highnodeutilization.go]
    and of the threshold validator exercised by [TestValidateThresholds],
    followed by the properties of the strategy entry point, of its
    threshold defaulting, of its classification predicates and of its
    continuation predicate. *)

From Stdlib Require Import ZArith QArith String.
From stdpp Require Import base option gmap strings list.

Local Open Scope string_scope.

(** ** Resource kinds, percentages, quantities *)

(** [v1.ResourceName] is a string type. *)
Abbreviation ResourceName := string (only parsing).

Definition ResourceCPU : ResourceName := "cpu".
Definition ResourceMemory : ResourceName := "memory".
Definition ResourcePods : ResourceName := "pods".
Definition ResourceStorage : ResourceName := "storage".

(** [api.Percentage] is a [float64].  The code only stores percentages and
    compares them with the two bounds, so a percentage is modelled by the
    rational number the (finite) float denotes. *)
Abbreviation Percentage := Q (only parsing).

(** Contents of an [api.ResourceThresholds] map object. *)
Abbreviation ResourceThresholds := (gmap string Q) (only parsing).

(** Modelled from the spec: the package constants [MinResourcePercentage]
    and [MaxResourcePercentage] are declared in [nodeutilization.go]; the
    validator's range message fixes them as Min=0 and Max=100. *)
Definition MinResourcePercentage : Percentage := 0%Q.
Definition MaxResourcePercentage : Percentage := 100%Q.

(** Modelled from the spec: [isBasicResource] is declared in
    [nodeutilization.go]; the three basic kinds are compute, memory and
    pod-count. *)
Definition isBasicResource (name : ResourceName) : bool :=
  if decide (name = ResourceCPU) then true
  else if decide (name = ResourceMemory) then true
  else if decide (name = ResourcePods) then true
  else false.

(** A [resource.Quantity] denotes a decimal number; it is modelled by that
    number.  [CmpInt64] returns -1, 0 or 1. *)
Abbreviation Quantity := Q (only parsing).

Definition CmpInt64 (q : Quantity) (y : Z) : Z :=
  match (q ?= inject_Z y)%Q with
  | Lt => (-1)%Z
  | Eq => 0%Z
  | Gt => 1%Z
  end.

(** ** The configuration objects and the store they live in

    Go maps are references and the strategy receives its thresholds through
    a pointer, so both live in a store: assignments made by the strategy
    are seen by every holder of the same pointer. *)

Abbreviation loc := positive (only parsing).

(** [api.NodeResourceUtilizationThresholds]; a map field holds [None] for
    the nil map and the address of a map object otherwise. *)
Record NodeResourceUtilizationThresholds := mkThresholds {
  UseDeviationThresholds : bool;
  Thresholds : option loc;
  TargetThresholds : option loc;
  NumberOfNodes : Z
}.

(** [api.StrategyParameters], reduced to the fields the strategy reads.
    The strategy never writes through [strategy.Params], so the pointed
    record is carried by value; the thresholds it points to are in the
    store.  The field [NodeResourceUtilizationThresholds] takes a
    lower-case initial here, the record above bearing the name. *)
Record StrategyParameters := mkParams {
  nodeResourceUtilizationThresholds : option loc;
  NodeFit : bool
}.

(** [api.DeschedulerStrategy]; [Params] is [None] for the nil pointer. *)
Record DeschedulerStrategy := mkStrategy {
  Enabled : bool;
  Weight : Z;
  Params : option StrategyParameters
}.

Record heap := mkHeap {
  cfgs : gmap loc NodeResourceUtilizationThresholds;
  maps : gmap loc ResourceThresholds
}.

(** ** Computations over the store; [None] is a run-time panic *)

Definition M (A : Type) : Type := heap → option (A * heap).

Definition ret {A} (a : A) : M A := λ h, Some (a, h).

Definition bind {A B} (m : M A) (k : A → M B) : M B :=
  λ h, match m h with
       | Some (a, h') => k a h'
       | None => None
       end.

Definition panic {A} : M A := λ _, None.

Notation "'do' x <- m ; k" := (bind m (λ x, k))
  (at level 10, x name, m at level 100, k at level 200).
Notation "'run' m ; k" := (bind m (λ _, k))
  (at level 10, m at level 100, k at level 200).

Fixpoint forM {A} (l : list A) (body : A → M unit) : M unit :=
  match l with
  | [] => ret tt
  | x :: l' => run body x; forM l' body
  end.

(** [*p]: dereferencing nil panics. *)
Definition deref (p : option loc) : M NodeResourceUtilizationThresholds :=
  λ h, match p with
       | Some l => c ← cfgs h !! l; Some (c, h)
       | None => None
       end.

(** [p.TargetThresholds = m] *)
Definition setTargetThresholds (p m : option loc) : M unit :=
  λ h, match p with
       | Some l =>
           c ← cfgs h !! l;
           Some (tt, mkHeap (<[l := mkThresholds (UseDeviationThresholds c)
                                     (Thresholds c) m (NumberOfNodes c)]> (cfgs h))
                            (maps h))
       | None => None
       end.

(** [make(api.ResourceThresholds)]: a new, empty map object. *)
Definition make : M (option loc) :=
  λ h, let l := fresh (dom (maps h)) in
       Some (Some l, mkHeap (cfgs h) (<[l := ∅]> (maps h))).

(** Contents of a map reference for reading: the nil map reads as empty. *)
Definition contents (m : option loc) : M ResourceThresholds :=
  λ h, match m with
       | Some l => c ← maps h !! l; Some (c, h)
       | None => Some (∅, h)
       end.

(** [len(m)] *)
Definition len (m : option loc) : M nat :=
  do c <- contents m; ret (size c).

(** [v, ok := m[k]] *)
Definition mapIndex (m : option loc) (k : ResourceName) : M (option Percentage) :=
  do c <- contents m; ret (c !! k).

(** [m[k] = v]: assignment to an entry of the nil map panics. *)
Definition assign (m : option loc) (k : ResourceName) (v : Percentage) : M unit :=
  λ h, match m with
       | Some l =>
           c ← maps h !! l;
           Some (tt, mkHeap (cfgs h) (<[l := <[k := v]> c]> (maps h)))
       | None => None
       end.

(** Go leaves the iteration order of [range] over a map unspecified: the
    model takes the order as an argument, constrained only to enumerate
    the keys. *)
Record RangeOrder := mkOrder {
  range_order : gset string → list string;
  range_order_perm : ∀ s, range_order s ≡ₚ elements s
}.

Definition canonical_order : RangeOrder :=
  {| range_order := elements; range_order_perm := λ s, reflexivity _ |}.

Section Defaults.

Context (order : RangeOrder).

(** The keys [for name := range m] visits; the range expression is
    evaluated once, before the first iteration. *)
Definition range (m : option loc) : M (list ResourceName) :=
  do c <- contents m; ret (range_order order (dom c)).

(** [if _, ok := thresholds.Thresholds[name]; !ok
       { thresholds.Thresholds[name] = MaxResourcePercentage }] *)
Definition defaultThreshold (thresholds : option loc) (name : ResourceName) : M unit :=
  do cfg <- deref thresholds;
  do v <- mapIndex (Thresholds cfg) name;
  match v with
  | Some _ => ret tt
  | None =>
      do cfg <- deref thresholds;
      assign (Thresholds cfg) name MaxResourcePercentage
  end.

(** [thresholds.TargetThresholds[name] = MaxResourcePercentage] *)
Definition defaultTarget (thresholds : option loc) (name : ResourceName) : M unit :=
  do cfg <- deref thresholds;
  assign (TargetThresholds cfg) name MaxResourcePercentage.

Definition setDefaultForThresholds (thresholds : option loc) : M unit :=
  (* check if Pods/CPU/Mem are set, if not, set them to 100 *)
  run defaultThreshold thresholds ResourcePods;
  run defaultThreshold thresholds ResourceCPU;
  run defaultThreshold thresholds ResourceMemory;
  (* Default targetThreshold resource values to 100 *)
  run defaultTarget thresholds ResourcePods;
  run defaultTarget thresholds ResourceCPU;
  run defaultTarget thresholds ResourceMemory;
  do cfg <- deref thresholds;
  do names <- range (Thresholds cfg);
  forM names (λ name,
    if negb (isBasicResource name)
    then defaultTarget thresholds name
    else ret tt).

End Defaults.

(** ** The store of map objects, read and written entry by entry *)

Abbreviation store := (gmap positive (gmap string Q)) (only parsing).

(** [rd s l k]: the entry [k] of the map object at [l]. *)
Definition rd (s : store) (l : loc) (k : ResourceName) : option Percentage :=
  s !! l ≫= λ c, c !! k.

(** [wr s l k v]: the store after [m[k] = v] on the map object at [l]. *)
Definition wr (s : store) (l : loc) (k : ResourceName) (v : Percentage) : store :=
  alter (<[k := v]>) l s.

(** The store after one "set to 100 unless set" statement. *)
Definition fill (s : store) (l : loc) (k : ResourceName) : store :=
  match rd s l k with
  | Some _ => s
  | None => wr s l k MaxResourcePercentage
  end.

(** The store after the loop that opens the target of every extended kind. *)
Definition openTarget (s : store) (l : loc) (names : list ResourceName) : store :=
  foldl (λ s name, if isBasicResource name then s
                   else wr s l name MaxResourcePercentage) s names.

(** The store [setDefaultForThresholds] leaves, for thresholds at [low]
    and target thresholds at [tgt]. *)
Definition defaulted (order : RangeOrder) (s : store) (low tgt : loc) : store :=
  let s1 := fill (fill (fill s low ResourcePods) low ResourceCPU) low ResourceMemory in
  let s2 := wr (wr (wr s1 tgt ResourcePods MaxResourcePercentage)
                   tgt ResourceCPU MaxResourcePercentage)
               tgt ResourceMemory MaxResourcePercentage in
  openTarget s2 tgt (range_order order (dom (default ∅ (s2 !! low)))).

(** ** The strategy's own validation *)

(** A collaborator that only reads the store. *)
Definition ask {A} (f : heap → A) : M A := λ h, Some (f h, h).

Definition targetThresholdsNotApplicable : string :=
  "targetThresholds is not applicable for HighNodeUtilization".

(** [validateThresholdsHigh] is declared in [nodeutilization.go] and is a
    parameter of the model: any function that reads the configuration and
    returns an error ([Some]) or nil ([None]). *)
Definition validateHighUtilizationStrategyConfig
    (validateThresholdsHigh : heap → option loc → option string)
    (thresholds : option loc) : M (option string) :=
  do cfg <- deref thresholds;
  do n <- len (TargetThresholds cfg);
  if negb (n =? 0)%nat then ret (Some targetThresholdsNotApplicable)
  else
    do err <- ask (λ h, validateThresholdsHigh h thresholds);
    match err with
    | Some e => ret (Some ("thresholds config is not valid: " ++ e))
    | None => ret None
    end.

(** ** The threshold validator of [TestValidateThresholds] *)

Definition noThresholdConfigured : string := "no resource threshold is configured".
Definition unsupportedThreshold : string :=
  "only cpu, memory, or pods thresholds can be specified".

(** [fmt.Errorf("%v threshold not in [%v, %v] range", name, Min, Max)] *)
Definition notInRange (name : ResourceName) : string :=
  name ++ " threshold not in [0, 100] range".

Section Validator.

Context (order : RangeOrder).

(** [IsExtendedResourceName] of the Kubernetes helpers: a parameter. *)
Context (IsExtendedResourceName : ResourceName → bool).

Definition supportedResource (name : ResourceName) : bool :=
  isBasicResource name || IsExtendedResourceName name.

(** A percentage passes when it lies in [Min, Max]; [upperExempt] lifts the
    upper bound. *)
Definition inRange (upperExempt : bool) (p : Percentage) : bool :=
  Qle_bool MinResourcePercentage p && (upperExempt || Qle_bool p MaxResourcePercentage).

Definition offends (upperExempt : bool) (m : ResourceThresholds) (name : ResourceName) : bool :=
  match m !! name with
  | Some p => negb (inRange upperExempt p)
  | None => false
  end.

(** The first entry of [m], in iteration order, whose percentage is out
    of range. *)
Definition findOffender (upperExempt : bool) (m : ResourceThresholds) : option ResourceName :=
  find (offends upperExempt m) (range_order order (dom m)).

(** Modelled from the spec: [validateThresholds] is declared in
    [nodeutilization.go]; [TestValidateThresholds] fixes its signature and
    its messages.  Following section 4.2: a nil or empty map is "no
    resource threshold is configured"; then a kind that is neither cpu,
    memory, pods nor extended is rejected; then a percentage outside
    [0,100], the target map being exempt from the upper bound when
    [UseDeviationThresholds] is set.  The configuration is only read: it is
    passed by the contents of its two maps, [None] for nil. *)
Definition validateThresholds (useDeviationThresholds : bool)
    (thresholds targetThresholds : option ResourceThresholds) : option string :=
  match thresholds, targetThresholds with
  | Some low, Some target =>
      if (size low =? 0)%nat || (size target =? 0)%nat
      then Some noThresholdConfigured
      else if negb (forallb supportedResource
                      (range_order order (dom low) ++ range_order order (dom target)))
      then Some unsupportedThreshold
      else match findOffender false low with
           | Some name => Some (notInRange name)
           | None =>
               match findOffender useDeviationThresholds target with
               | Some name => Some (notInRange name)
               | None => None
               end
           end
  | _, _ => Some noThresholdConfigured
  end.

End Validator.

(** ** Nodes, usage, classification *)

(** [v1.Node], reduced to its name and its schedulability flag. *)
Record Node := mkNode {
  nodeName : string;
  Unschedulable : bool
}.

(** Modelled from the spec: [nodeutil.IsNodeUnschedulable] is declared in
    the [node] package; a node carries a schedulability flag, set
    when the orchestration layer marks the node unschedulable. *)
Definition IsNodeUnschedulable (node : Node) : bool := Unschedulable node.

(** [NodeUsage], with the two fields [TestResourceUsagePercentages] sets. *)
Record NodeUsage := mkUsage {
  node : Node;
  usage : gmap string Q
}.

Record Pod := mkPod { podName : string }.

(** Modelled from the spec: [classifyNodes] is declared in
    [nodeutilization.go].  Following section 4.3: one linear pass over the
    input, both predicates evaluated independently on each node, a node
    joining the donors when the donor predicate holds and the receivers
    when the receiver predicate holds; both outputs keep the input order. *)
Fixpoint classifyNodes (nodeUsages : list NodeUsage)
    (sourceFilter destinationFilter : Node → NodeUsage → bool)
    : list NodeUsage * list NodeUsage :=
  match nodeUsages with
  | [] => ([], [])
  | nodeUsage :: rest =>
      let '(sourceNodes, destinationNodes) :=
        classifyNodes rest sourceFilter destinationFilter in
      ((if sourceFilter (node nodeUsage) nodeUsage
        then nodeUsage :: sourceNodes else sourceNodes),
       (if destinationFilter (node nodeUsage) nodeUsage
        then nodeUsage :: destinationNodes else destinationNodes))
  end.

(** ** The strategy entry point *)

(** The functions the entry point calls that are declared in other files
    of the repository.  Each is taken for a fixed [ctx], [client] and
    [podEvictor]; each may read the store and none writes it.
    [evictPodsFromSourceNodes] yields the pods it evicted, in order. *)
Record Collaborators := mkCollaborators {
  validateNodeUtilizationParams : heap → option StrategyParameters → option string;
  GetPriorityFromStrategyParams : heap → option StrategyParameters → Z + string;
  validateThresholdsHigh : heap → option loc → option string;
  getResourceNames : heap → option loc → list ResourceName;
  getNodeUsage : heap → list Node → option loc → list ResourceName → list NodeUsage;
  isNodeWithLowUtilization : NodeUsage → bool;
  Evictable : Z → bool → Pod → bool;
  evictPodsFromSourceNodes :
    list NodeUsage → list NodeUsage → (Pod → bool) → list ResourceName → string →
    (NodeUsage → gmap string Q → bool) → list Pod
}.

(** How a call of [HighNodeUtilization] ends. *)
Inductive Outcome :=
| InvalidParameters (err : string)
| NoThresholdPriority (err : string)
| InvalidConfig (err : string)
| NoUnderutilizedNode
| BelowNumberOfNodes (underutilizedNodes : nat) (numberOfNodes : Z)
| AllNodesUnderutilized
| NoDestinationNode
| Evicted (pods : list Pod).

(** The pods a call evicted. *)
Definition evictions (o : Outcome) : list Pod :=
  match o with
  | Evicted pods => pods
  | _ => []
  end.

(** [strategy.Params.f]: a nil [Params] panics. *)
Definition derefParams (p : option StrategyParameters) : M StrategyParameters :=
  match p with
  | Some params => ret params
  | None => panic
  end.

Section Strategy.

Context (E : Collaborators) (order : RangeOrder).

(** stop if the total available usage has dropped to zero - no more pods
    can be scheduled.  The entries of the ledger are non-nil pointers to
    quantities; an entry is modelled by its quantity. *)
Fixpoint continueEvictionLoop (totalAvailableUsage : gmap string Q)
    (names : list ResourceName) : bool :=
  match names with
  | [] => true
  | name :: rest =>
      match totalAvailableUsage !! name with
      | Some q =>
          if (CmpInt64 q 0 <? 1)%Z then false
          else continueEvictionLoop totalAvailableUsage rest
      | None => continueEvictionLoop totalAvailableUsage rest
      end
  end.

Definition continueEvictionCond (nodeUsage : NodeUsage)
    (totalAvailableUsage : gmap string Q) : bool :=
  continueEvictionLoop totalAvailableUsage
    (range_order order (dom totalAvailableUsage)).

(** The two predicates handed to [classifyNodes]. *)
Definition sourceFilter (node : Node) (usage : NodeUsage) : bool :=
  isNodeWithLowUtilization E usage.

Definition destinationFilter (node : Node) (usage : NodeUsage) : bool :=
  if IsNodeUnschedulable node then false
  else negb (isNodeWithLowUtilization E usage).

(** The entry point.  Logging is left out. *)
Definition HighNodeUtilization (strategy : DeschedulerStrategy) (nodes : list Node)
    : M Outcome :=
  do invalid <- ask (λ h, validateNodeUtilizationParams E h (Params strategy));
  match invalid with
  | Some err => ret (InvalidParameters err)
  | None =>
  let nodeFit := match Params strategy with
                 | Some params => NodeFit params
                 | None => false
                 end in
  do priority <- ask (λ h, GetPriorityFromStrategyParams E h (Params strategy));
  match priority with
  | inr err => ret (NoThresholdPriority err)
  | inl thresholdPriority =>
  do params <- derefParams (Params strategy);
  let strategyConfig := nodeResourceUtilizationThresholds params in
  do target <- make;
  run setTargetThresholds strategyConfig target;
  do invalid <- validateHighUtilizationStrategyConfig (validateThresholdsHigh E) strategyConfig;
  match invalid with
  | Some err => ret (InvalidConfig err)
  | None =>
  run setDefaultForThresholds order strategyConfig;
  do cfg <- deref strategyConfig;
  do resourceNames <- ask (λ h, getResourceNames E h (TargetThresholds cfg));
  do usages <- ask (λ h, getNodeUsage E h nodes strategyConfig resourceNames);
  let '(sourceNodes, highNodes) := classifyNodes usages sourceFilter destinationFilter in
  if (length sourceNodes =? 0)%nat then ret NoUnderutilizedNode
  else
  do params <- derefParams (Params strategy);
  do cfg <- deref (nodeResourceUtilizationThresholds params);
  if (Z.of_nat (length sourceNodes) <=? NumberOfNodes cfg)%Z
  then ret (BelowNumberOfNodes (length sourceNodes) (NumberOfNodes cfg))
  else if (length sourceNodes =? length nodes)%nat then ret AllNodesUnderutilized
  else if (length highNodes =? 0)%nat then ret NoDestinationNode
  else
  let evictable := Evictable E thresholdPriority nodeFit in
  ret (Evicted (evictPodsFromSourceNodes E sourceNodes highNodes evictable
                  resourceNames "HighNodeUtilization" continueEvictionCond))
  end end end.

End Strategy.

(** ** The stages of a call, for stating its properties *)

(** The store after [strategyConfig.TargetThresholds = make(...)] on the
    configuration [cfg] at [c]: a new empty map object, and the field
    pointing to it. *)
Definition withFreshTarget (h : heap) (c : loc) (cfg : NodeResourceUtilizationThresholds)
    : heap :=
  let t := fresh (dom (maps h)) in
  mkHeap (<[c := mkThresholds (UseDeviationThresholds cfg) (Thresholds cfg)
                              (Some t) (NumberOfNodes cfg)]> (cfgs h))
         (<[t := ∅]> (maps h)).

(** The classification a call computes in store [h], for the
    configuration pointer [strategyConfig] and the target map [target]. *)
Definition classified (E : Collaborators) (h : heap) (nodes : list Node)
    (strategyConfig target : option loc) : list NodeUsage * list NodeUsage :=
  classifyNodes
    (getNodeUsage E h nodes strategyConfig (getResourceNames E h target))
    (sourceFilter E) (destinationFilter E).

(** The guards and the eviction call that follow the classification, as a
    function of the values they read. *)
Definition guardedEviction (E : Collaborators) (order : RangeOrder)
    (thresholdPriority : Z) (nodeFit : bool) (nodes : list Node) (numberOfNodes : Z)
    (resourceNames : list ResourceName) (sourceNodes highNodes : list NodeUsage)
    : Outcome :=
  if (length sourceNodes =? 0)%nat then NoUnderutilizedNode
  else if (Z.of_nat (length sourceNodes) <=? numberOfNodes)%Z
  then BelowNumberOfNodes (length sourceNodes) numberOfNodes
  else if (length sourceNodes =? length nodes)%nat then AllNodesUnderutilized
  else if (length highNodes =? 0)%nat then NoDestinationNode
  else Evicted (evictPodsFromSourceNodes E sourceNodes highNodes
                  (Evictable E thresholdPriority nodeFit) resourceNames
                  "HighNodeUtilization" (continueEvictionCond order)).

(** A call got as far as classifying the nodes. *)
Definition reachedClassification (o : Outcome) : Prop :=
  match o with
  | InvalidParameters _ | NoThresholdPriority _ | InvalidConfig _ => False
  | _ => True
  end.

(** ** Percentages out of range, for stating the validator's properties *)

(** [p] lies below Min or, unless the upper bound is lifted, above Max. *)
Definition outOfRange (upperExempt : bool) (p : Percentage) : Prop :=
  (p < MinResourcePercentage)%Q ∨
  (upperExempt = false ∧ (MaxResourcePercentage < p)%Q).

(** The entry [name] of one of the two maps is out of range; the target
    map is exempt from the upper bound under [UseDeviationThresholds]. *)
Definition violates (useDeviationThresholds : bool)
    (low target : ResourceThresholds) (name : ResourceName) : Prop :=
  (∃ p, low !! name = Some p ∧ outOfRange false p) ∨
  (∃ p, target !! name = Some p ∧ outOfRange useDeviationThresholds p).

(** ** Sample inputs, for the examples *)

(** A stand-in for [IsExtendedResourceName]: the name has a domain prefix. *)
Definition sampleIsExtendedResourceName (name : ResourceName) : bool :=
  if String.index 0 "/" name is Some _ then true else false.

(** [extendedResource] of [TestValidateThresholds]. *)
Definition extendedResource : ResourceName := "example.com/foo".

(** A usage counts as low, in the samples, when it requests at most 20
    units of cpu. *)
Definition sampleIsLow (nu : NodeUsage) : bool :=
  match usage nu !! ResourceCPU with
  | Some q => Qle_bool q 20
  | None => true
  end.

(** Sample collaborators: the parameter check wants a thresholds pointer,
    the thresholds check wants a non-empty thresholds map, a node named
    "idle" uses 5 units of cpu and any other 90, and the driver evicts one
    pod from each donor. *)
Definition sampleCollaborators : Collaborators := {|
  validateNodeUtilizationParams := λ _ p,
    match p with
    | Some (mkParams (Some _) _) => None
    | _ => Some "NodeResourceUtilizationThresholds not set"
    end;
  GetPriorityFromStrategyParams := λ _ _, inl 0%Z;
  validateThresholdsHigh := λ h c,
    match c ≫= λ l, cfgs h !! l with
    | Some (mkThresholds _ (Some low) _ _) =>
        match maps h !! low with
        | Some m => if (size m =? 0)%nat then Some noThresholdConfigured else None
        | None => Some noThresholdConfigured
        end
    | _ => Some noThresholdConfigured
    end;
  getResourceNames := λ h m,
    match m ≫= λ l, maps h !! l with
    | Some c => elements (dom c)
    | None => []
    end;
  getNodeUsage := λ _ nodes _ _,
    (λ n, mkUsage n {[ResourceCPU := if decide (nodeName n = "idle") then 5%Q else 90%Q]})
      <$> nodes;
  isNodeWithLowUtilization := sampleIsLow;
  Evictable := λ _ _ _, true;
  evictPodsFromSourceNodes := λ sourceNodes _ _ _ _ _,
    (λ nu, mkPod (nodeName (node nu))) <$> sourceNodes
|}.

Definition idleNode : Node := mkNode "idle" false.
Definition busyNode : Node := mkNode "busy" false.
Definition cordonedNode : Node := mkNode "cordoned" true.

Definition idleUsage : NodeUsage := mkUsage idleNode {[ResourceCPU := 5%Q]}.
Definition busyUsage : NodeUsage := mkUsage busyNode {[ResourceCPU := 90%Q]}.

(** A strategy whose parameters point to the configuration at address 1. *)
Definition sampleStrategy : DeschedulerStrategy :=
  mkStrategy true 0 (Some (mkParams (Some 1%positive) false)).

(** A store where the configuration at 1 has thresholds {cpu: 20,
    example.com/foo: 30} (map 2), caller-supplied target thresholds
    {cpu: 50} (map 3), and [NumberOfNodes] as given. *)
Definition sampleHeap (numberOfNodes : Z) : heap :=
  mkHeap {[1%positive := mkThresholds false (Some 2%positive) (Some 3%positive)
                           numberOfNodes]}
         {[2%positive := {[ResourceCPU := 20%Q; extendedResource := 30%Q]};
           3%positive := {[ResourceCPU := 50%Q]}]}.

(** A store where the configuration at 1 has a nil thresholds map and
    caller-supplied target thresholds {cpu: 50} (map 2). *)
Definition nilThresholdsHeap : heap :=
  mkHeap {[1%positive := mkThresholds false None (Some 2%positive) 0]}
         {[2%positive := {[ResourceCPU := 50%Q]}]}.

(** A store where the configuration at 1 has one map object, {cpu: 20,
    example.com/foo: 30} (map 2), as its thresholds and as its target
    thresholds. *)
Definition aliasedHeap : heap :=
  mkHeap {[1%positive := mkThresholds false (Some 2%positive) (Some 2%positive) 0]}
         {[2%positive := {[ResourceCPU := 20%Q; extendedResource := 30%Q]}]}.

(** ** The defaulting, entry by entry *)

(** The entry [k] of the map object at [l] once the defaulting has run on
    the store [s], for thresholds at [low] and target thresholds at [tgt]:
    the target gets 100 for every basic kind and every kind of the
    thresholds, the thresholds get 100 for every basic kind they lack, and
    nothing else changes. *)
Definition defaultedEntry (s : gmap positive (gmap string Q)) (low tgt l : positive)
    (k : string) : option Q :=
  if decide (l = tgt ∧ (isBasicResource k = true ∨ is_Some (rd s low k)))
  then Some MaxResourcePercentage
  else if decide (l = low ∧ isBasicResource k = true ∧ rd s low k = None)
  then Some MaxResourcePercentage
  else rd s l k.

(** ** More sample inputs *)

(** Collaborators that differ from the sample ones in letting every
    thresholds configuration through. *)
Definition lenientCollaborators : Collaborators :=
  mkCollaborators
    (validateNodeUtilizationParams sampleCollaborators)
    (GetPriorityFromStrategyParams sampleCollaborators)
    (λ _ _, None)
    (getResourceNames sampleCollaborators)
    (getNodeUsage sampleCollaborators)
    (isNodeWithLowUtilization sampleCollaborators)
    (Evictable sampleCollaborators)
    (evictPodsFromSourceNodes sampleCollaborators).

(** A strategy with nil parameters. *)
Definition nilParamsStrategy : DeschedulerStrategy := mkStrategy true 0 None.

(** * Properties *)

(** ** Entries of the store *)

Lemma wr_is_Some (s : store) l k v l' :
  is_Some (wr s l k v !! l') ↔ is_Some (s !! l').
Proof.
  unfold wr. rewrite lookup_alter. case_decide; [subst|done].
  by rewrite fmap_is_Some.
Qed.

Lemma rd_wr_eq (s : store) l k v :
  is_Some (s !! l) → rd (wr s l k v) l k = Some v.
Proof.
  intros [c Hc]. unfold rd, wr. rewrite lookup_alter_eq, Hc. simpl.
  apply lookup_insert_eq.
Qed.

Lemma rd_wr_ne (s : store) l k v l' k' :
  l ≠ l' ∨ k ≠ k' → rd (wr s l k v) l' k' = rd s l' k'.
Proof.
  intros Hne. unfold rd, wr. rewrite lookup_alter. case_decide; [subst|done].
  destruct (s !! l') as [c|]; [simpl|done].
  apply lookup_insert_ne. by destruct Hne.
Qed.

Lemma rd_wr_is_Some (s : store) l k v l' k' :
  is_Some (rd s l' k') → is_Some (rd (wr s l k v) l' k').
Proof.
  intros Hs. destruct (decide (l = l' ∧ k = k')) as [[-> ->]|Hne].
  - rewrite rd_wr_eq; [done|]. unfold rd in Hs.
    destruct (s !! l'); [done|]. by destruct Hs.
  - rewrite rd_wr_ne; [done|]. destruct (decide (l = l')); naive_solver.
Qed.

Lemma rd_dom (s : store) l c k :
  s !! l = Some c → is_Some (rd s l k) ↔ k ∈ dom c.
Proof. intros Hc. unfold rd. rewrite Hc. simpl. by rewrite elem_of_dom. Qed.

Lemma fill_is_Some (s : store) l k l' :
  is_Some (fill s l k !! l') ↔ is_Some (s !! l').
Proof. unfold fill. destruct (rd s l k); [done|]. apply wr_is_Some. Qed.

Lemma rd_fill_is_Some (s : store) l k l' k' :
  is_Some (rd s l' k') → is_Some (rd (fill s l k) l' k').
Proof. unfold fill. destruct (rd s l k); [done|]. apply rd_wr_is_Some. Qed.

Lemma rd_fill_old (s : store) l k l' k' v :
  rd s l' k' = Some v → rd (fill s l k) l' k' = Some v.
Proof.
  intros Hv. unfold fill. destruct (rd s l k) eqn:E; [done|].
  rewrite rd_wr_ne; [done|]. destruct (decide (l = l')); [subst|naive_solver].
  right. intros ->. congruence.
Qed.

Lemma rd_fill_new (s : store) l k :
  is_Some (s !! l) → rd s l k = None →
  rd (fill s l k) l k = Some MaxResourcePercentage.
Proof. intros Hl E. unfold fill. rewrite E. by apply rd_wr_eq. Qed.

Lemma rd_fill_ne (s : store) l k l' k' :
  l ≠ l' ∨ k ≠ k' → rd (fill s l k) l' k' = rd s l' k'.
Proof. intros Hne. unfold fill. destruct (rd s l k); [done|]. by apply rd_wr_ne. Qed.

Lemma openTarget_is_Some (s : store) l names l' :
  is_Some (openTarget s l names !! l') ↔ is_Some (s !! l').
Proof.
  unfold openTarget. revert s. induction names as [|name names IH]; intros s; [done|].
  simpl. rewrite IH. destruct (isBasicResource name); [done|]. apply wr_is_Some.
Qed.

Lemma rd_openTarget_keep (s : store) l names l' k' :
  rd s l' k' = Some MaxResourcePercentage →
  rd (openTarget s l names) l' k' = Some MaxResourcePercentage.
Proof.
  unfold openTarget. revert s. induction names as [|name names IH]; intros s Hs; [done|].
  simpl. apply IH. destruct (isBasicResource name); [done|].
  destruct (decide (l = l' ∧ name = k')) as [[-> ->]|Hne].
  - apply rd_wr_eq. unfold rd in Hs. by destruct (s !! l').
  - rewrite rd_wr_ne; [done|]. destruct (decide (l = l')); naive_solver.
Qed.

Lemma rd_openTarget_elem (s : store) l names name :
  is_Some (s !! l) → name ∈ names → isBasicResource name = false →
  rd (openTarget s l names) l name = Some MaxResourcePercentage.
Proof.
  unfold openTarget. revert s.
  induction names as [|n names IH]; intros s Hl Hin Hb; [by apply elem_of_nil in Hin|].
  simpl. apply elem_of_cons in Hin as [<-|Hin].
  - rewrite Hb. apply (rd_openTarget_keep _ l names). by apply rd_wr_eq.
  - apply IH; [|done..]. destruct (isBasicResource n); [done|]. by apply wr_is_Some.
Qed.

Lemma rd_openTarget_other (s : store) l names l' k' :
  l ≠ l' ∨ k' ∉ names ∨ isBasicResource k' = true →
  rd (openTarget s l names) l' k' = rd s l' k'.
Proof.
  unfold openTarget. revert s. induction names as [|n names IH]; intros s Hne; [done|].
  simpl. rewrite IH.
  - destruct (isBasicResource n) eqn:Hb; [done|]. apply rd_wr_ne.
    destruct Hne as [?|[Hni|Hk]]; [by left|right..].
    + intros ->. apply Hni. by left.
    + intros ->. congruence.
  - destruct Hne as [?|[Hni|Hk]]; [by left|right; left|by right; right].
    intros Hin. apply Hni. by right.
Qed.

(** ** Running the defaulting on the store *)

Section DefaultsRun.

Context (order : RangeOrder).

Lemma bind_Some {A B} (m : M A) (k : A → M B) h a h' :
  m h = Some (a, h') → bind m k h = k a h'.
Proof. intros E. unfold bind. by rewrite E. Qed.

Lemma deref_Some h c cfg :
  cfgs h !! c = Some cfg → deref (Some c) h = Some (cfg, h).
Proof. intros E. unfold deref. by rewrite E. Qed.

Lemma assign_wr h l k v :
  is_Some (maps h !! l) →
  assign (Some l) k v h = Some (tt, mkHeap (cfgs h) (wr (maps h) l k v)).
Proof.
  intros [c Hc]. unfold assign. rewrite Hc. simpl. do 3 f_equal.
  apply map_eq. intros j. unfold wr. rewrite lookup_alter, lookup_insert.
  case_decide; [subst|done]. by rewrite Hc.
Qed.

Lemma mapIndex_rd h l k :
  is_Some (maps h !! l) → mapIndex (Some l) k h = Some (rd (maps h) l k, h).
Proof. intros [c Hc]. unfold mapIndex, bind, contents, rd. by rewrite Hc. Qed.

Lemma defaultThreshold_fill h c cfg low name :
  cfgs h !! c = Some cfg → Thresholds cfg = Some low → is_Some (maps h !! low) →
  defaultThreshold (Some c) name h = Some (tt, mkHeap (cfgs h) (fill (maps h) low name)).
Proof.
  intros Hc Hlow Hm. unfold defaultThreshold.
  rewrite (bind_Some _ _ _ _ _ (deref_Some _ _ _ Hc)), Hlow.
  rewrite (bind_Some _ _ _ _ _ (mapIndex_rd _ _ _ Hm)).
  unfold fill. destruct (rd (maps h) low name).
  - unfold ret. by destruct h.
  - rewrite (bind_Some _ _ _ _ _ (deref_Some _ _ _ Hc)), Hlow. by apply assign_wr.
Qed.

Lemma defaultTarget_wr h c cfg tgt name :
  cfgs h !! c = Some cfg → TargetThresholds cfg = Some tgt → is_Some (maps h !! tgt) →
  defaultTarget (Some c) name h
  = Some (tt, mkHeap (cfgs h) (wr (maps h) tgt name MaxResourcePercentage)).
Proof.
  intros Hc Htgt Hm. unfold defaultTarget.
  rewrite (bind_Some _ _ _ _ _ (deref_Some _ _ _ Hc)), Htgt. by apply assign_wr.
Qed.

Lemma forM_openTarget h c cfg tgt names :
  cfgs h !! c = Some cfg → TargetThresholds cfg = Some tgt → is_Some (maps h !! tgt) →
  forM names (λ name, if negb (isBasicResource name)
                      then defaultTarget (Some c) name else ret tt) h
  = Some (tt, mkHeap (cfgs h) (openTarget (maps h) tgt names)).
Proof.
  intros Hc Htgt. revert h Hc. unfold openTarget.
  induction names as [|name names IH]; intros h Hc Hm; simpl.
  - unfold ret. by destruct h.
  - destruct (isBasicResource name); simpl.
    + unfold bind, ret. by apply IH.
    + erewrite bind_Some; [|by eapply defaultTarget_wr].
      rewrite IH; [done|done|]. simpl. by apply wr_is_Some.
Qed.

Lemma setDefaultForThresholds_defaulted h c cfg low tgt :
  cfgs h !! c = Some cfg → Thresholds cfg = Some low → TargetThresholds cfg = Some tgt →
  is_Some (maps h !! low) → is_Some (maps h !! tgt) →
  setDefaultForThresholds order (Some c) h
  = Some (tt, mkHeap (cfgs h) (defaulted order (maps h) low tgt)).
Proof.
  intros Hc Hlow Htgt Hl Ht. unfold setDefaultForThresholds, defaulted.
  erewrite bind_Some; [|by eapply defaultThreshold_fill].
  erewrite bind_Some; [|eapply defaultThreshold_fill; [done..|]; simpl;
                        by rewrite fill_is_Some].
  erewrite bind_Some; [|eapply defaultThreshold_fill; [done..|]; simpl;
                        by rewrite !fill_is_Some].
  simpl.
  erewrite bind_Some; [|eapply defaultTarget_wr; [done..|]; simpl;
                        by rewrite !fill_is_Some].
  erewrite bind_Some; [|eapply defaultTarget_wr; [done..|]; simpl;
                        by rewrite wr_is_Some, !fill_is_Some].
  erewrite bind_Some; [|eapply defaultTarget_wr; [done..|]; simpl;
                        by rewrite !wr_is_Some, !fill_is_Some].
  simpl.
  erewrite bind_Some; [|by eapply deref_Some]. rewrite Hlow.
  set (s2 := wr _ tgt ResourceMemory _).
  assert (is_Some (s2 !! low)) as [c2 Hc2].
  { unfold s2. by rewrite !wr_is_Some, !fill_is_Some. }
  erewrite bind_Some; [|unfold range, bind, contents; simpl; by rewrite Hc2].
  rewrite Hc2. simpl.
  rewrite (forM_openTarget _ c cfg tgt); [done..|].
  simpl. unfold s2. by rewrite !wr_is_Some, !fill_is_Some.
Qed.

End DefaultsRun.

(** ** Threshold defaulting *)

Lemma rd_wr_keep (s : store) l k l' k' :
  rd s l' k' = Some MaxResourcePercentage →
  rd (wr s l k MaxResourcePercentage) l' k' = Some MaxResourcePercentage.
Proof.
  intros Hs. destruct (decide (l = l' ∧ k = k')) as [[-> ->]|Hne].
  - apply rd_wr_eq. unfold rd in Hs. by destruct (s !! l').
  - rewrite rd_wr_ne; [done|]. destruct (decide (l = l')); naive_solver.
Qed.

Lemma isBasicResource_true name :
  isBasicResource name = true ↔
  name = ResourceCPU ∨ name = ResourceMemory ∨ name = ResourcePods.
Proof.
  unfold isBasicResource.
  repeat case_decide; (split; [intros; by auto | by intros [?|[?|?]]]).
Qed.

Section DefaultsProperties.

Context (order : RangeOrder).

Lemma defaulted_is_Some (s : store) low tgt l :
  is_Some (defaulted order s low tgt !! l) ↔ is_Some (s !! l).
Proof.
  unfold defaulted. by rewrite openTarget_is_Some, !wr_is_Some, !fill_is_Some.
Qed.

Lemma defaulted_target_basic (s : store) low tgt name :
  is_Some (s !! tgt) → isBasicResource name = true →
  rd (defaulted order s low tgt) tgt name = Some MaxResourcePercentage.
Proof.
  intros Ht Hb. unfold defaulted. apply rd_openTarget_keep.
  apply isBasicResource_true in Hb as [->|[->| ->]].
  - apply rd_wr_keep, rd_wr_eq. by rewrite wr_is_Some, !fill_is_Some.
  - apply rd_wr_eq. by rewrite !wr_is_Some, !fill_is_Some.
  - apply rd_wr_keep, rd_wr_keep, rd_wr_eq. by rewrite !fill_is_Some.
Qed.

Lemma defaulted_low_grows (s : store) low tgt name :
  is_Some (rd s low name) → is_Some (rd (defaulted order s low tgt) low name).
Proof.
  intros Hs. unfold defaulted.
  assert (∀ s' l names, is_Some (rd s' low name) →
            is_Some (rd (openTarget s' l names) low name)) as Hopen.
  { intros s' l names. revert s'. unfold openTarget.
    induction names as [|n names IH]; intros s' Hs'; [done|]. simpl. apply IH.
    destruct (isBasicResource n); [done|]. by apply rd_wr_is_Some. }
  by apply Hopen, rd_wr_is_Some, rd_wr_is_Some, rd_wr_is_Some,
     rd_fill_is_Some, rd_fill_is_Some, rd_fill_is_Some.
Qed.

Lemma defaulted_target_extended (s : store) low tgt name :
  is_Some (s !! low) → is_Some (s !! tgt) → isBasicResource name = false →
  is_Some (rd (defaulted order s low tgt) low name) →
  rd (defaulted order s low tgt) tgt name = Some MaxResourcePercentage.
Proof.
  intros Hl Ht Hb. unfold defaulted.
  set (s2 := wr _ tgt ResourceMemory _).
  assert (is_Some (s2 !! low)) as [c2 Hc2].
  { unfold s2. by rewrite !wr_is_Some, !fill_is_Some. }
  assert (is_Some (s2 !! tgt)) as Ht2.
  { unfold s2. by rewrite !wr_is_Some, !fill_is_Some. }
  rewrite Hc2. simpl. intros Hs.
  destruct (decide (name ∈ range_order order (dom c2))) as [Hin|Hni].
  - by apply rd_openTarget_elem.
  - rewrite rd_openTarget_other in Hs by (right; by left).
    apply (rd_dom _ _ _ _ Hc2) in Hs. exfalso. apply Hni.
    rewrite (range_order_perm order). by apply elem_of_elements.
Qed.

Lemma defaulted_low_basic_missing (s : store) low tgt name :
  is_Some (s !! low) → isBasicResource name = true → rd s low name = None →
  rd (defaulted order s low tgt) low name = Some MaxResourcePercentage.
Proof.
  intros Hl Hb Hn. unfold defaulted.
  apply rd_openTarget_keep, rd_wr_keep, rd_wr_keep, rd_wr_keep.
  apply isBasicResource_true in Hb as [->|[->| ->]].
  - apply rd_fill_old, rd_fill_new; [by rewrite fill_is_Some|].
    rewrite rd_fill_ne; [done|by right].
  - apply rd_fill_new; [by rewrite !fill_is_Some|].
    rewrite !rd_fill_ne; [done|by right..].
  - by apply rd_fill_old, rd_fill_old, rd_fill_new.
Qed.

Lemma defaulted_low_kept (s : store) low tgt name v :
  low ≠ tgt → rd s low name = Some v →
  rd (defaulted order s low tgt) low name = Some v.
Proof.
  intros Hne Hv. unfold defaulted.
  rewrite rd_openTarget_other by (left; done).
  rewrite !rd_wr_ne by (left; done).
  by apply rd_fill_old, rd_fill_old, rd_fill_old.
Qed.

(** C3: once [setDefaultForThresholds] has run on a configuration whose
    two maps are allocated, the target map sends cpu, memory and pods, and
    every extended kind of the low map, to 100. *)
Theorem setDefaultForThresholds_opens_target h c cfg low tgt :
  cfgs h !! c = Some cfg →
  Thresholds cfg = Some low → TargetThresholds cfg = Some tgt →
  is_Some (maps h !! low) → is_Some (maps h !! tgt) →
  ∃ h' lowMap targetMap,
    setDefaultForThresholds order (Some c) h = Some (tt, h') ∧
    cfgs h' = cfgs h ∧
    maps h' !! low = Some lowMap ∧ maps h' !! tgt = Some targetMap ∧
    targetMap !! ResourceCPU = Some MaxResourcePercentage ∧
    targetMap !! ResourceMemory = Some MaxResourcePercentage ∧
    targetMap !! ResourcePods = Some MaxResourcePercentage ∧
    ∀ name, isBasicResource name = false →
            name ∈ dom lowMap ∨ is_Some (rd (maps h) low name) →
            targetMap !! name = Some MaxResourcePercentage.
Proof.
  intros Hc Hlow Htgt Hl Ht.
  pose proof (proj2 (defaulted_is_Some (maps h) low tgt low) Hl) as [lowMap HlowMap].
  pose proof (proj2 (defaulted_is_Some (maps h) low tgt tgt) Ht) as [targetMap HtargetMap].
  exists (mkHeap (cfgs h) (defaulted order (maps h) low tgt)), lowMap, targetMap.
  assert (∀ name, targetMap !! name = rd (defaulted order (maps h) low tgt) tgt name) as Hrd.
  { intros name. unfold rd. by rewrite HtargetMap. }
  split; [by eapply setDefaultForThresholds_defaulted|]. simpl.
  split_and!; [done..| | | |].
  - rewrite Hrd. by apply defaulted_target_basic.
  - rewrite Hrd. by apply defaulted_target_basic.
  - rewrite Hrd. by apply defaulted_target_basic.
  - intros name Hb Hin. rewrite Hrd. apply defaulted_target_extended; [done..|].
    destruct Hin as [Hin|Hin].
    + by apply (rd_dom _ _ _ _ HlowMap).
    + by apply defaulted_low_grows.
Qed.

(** C4, as the code has it: once [setDefaultForThresholds] has run on a
    configuration whose two maps are allocated, both maps have entries for
    cpu, memory and pods; a basic kind missing from the low map is filled
    in with 100; one present keeps its value when the low map and the
    target map are two map objects, and ends at 100 when one map object
    serves as both. *)
Theorem setDefaultForThresholds_basic_kinds h c cfg low tgt lowMap0 :
  cfgs h !! c = Some cfg →
  Thresholds cfg = Some low → TargetThresholds cfg = Some tgt →
  maps h !! low = Some lowMap0 → is_Some (maps h !! tgt) →
  ∃ h' lowMap targetMap,
    setDefaultForThresholds order (Some c) h = Some (tt, h') ∧
    maps h' !! low = Some lowMap ∧ maps h' !! tgt = Some targetMap ∧
    ∀ name, isBasicResource name = true →
      is_Some (lowMap !! name) ∧ is_Some (targetMap !! name) ∧
      (lowMap0 !! name = None → lowMap !! name = Some MaxResourcePercentage) ∧
      (∀ v, low ≠ tgt → lowMap0 !! name = Some v → lowMap !! name = Some v) ∧
      (low = tgt → lowMap !! name = Some MaxResourcePercentage).
Proof.
  intros Hc Hlow Htgt Hl0 Ht.
  assert (is_Some (maps h !! low)) as Hl by (by rewrite Hl0).
  pose proof (proj2 (defaulted_is_Some (maps h) low tgt low) Hl) as [lowMap HlowMap].
  pose proof (proj2 (defaulted_is_Some (maps h) low tgt tgt) Ht) as [targetMap HtargetMap].
  exists (mkHeap (cfgs h) (defaulted order (maps h) low tgt)), lowMap, targetMap.
  assert (∀ name, targetMap !! name = rd (defaulted order (maps h) low tgt) tgt name) as Hrdt.
  { intros name. unfold rd. by rewrite HtargetMap. }
  assert (∀ name, lowMap !! name = rd (defaulted order (maps h) low tgt) low name) as Hrdl.
  { intros name. unfold rd. by rewrite HlowMap. }
  assert (∀ name, lowMap0 !! name = rd (maps h) low name) as Hrd0.
  { intros name. unfold rd. by rewrite Hl0. }
  split; [by eapply setDefaultForThresholds_defaulted|]. simpl.
  split_and!; [done..|].
  intros name Hb. rewrite Hrdt, Hrdl, Hrd0. split_and!.
  - destruct (rd (maps h) low name) as [v|] eqn:E.
    + apply defaulted_low_grows. by rewrite E.
    + by rewrite defaulted_low_basic_missing.
  - by rewrite defaulted_target_basic.
  - intros E. by apply defaulted_low_basic_missing.
  - intros v Hne E. by apply defaulted_low_kept.
  - intros Heq. rewrite Heq. apply defaulted_target_basic; [by rewrite <- Heq|done].
Qed.

End DefaultsProperties.

(** ** Every entry of the store after the defaulting *)

Section Entries.
Context (order : RangeOrder).

Lemma store_ext (s1 s2 : gmap positive (gmap string Q)) :
  (∀ l, is_Some (s1 !! l) ↔ is_Some (s2 !! l)) →
  (∀ l k, rd s1 l k = rd s2 l k) → s1 = s2.
Proof.
  intros Hdom Hrd. apply map_eq. intros l. specialize (Hdom l).
  destruct (s1 !! l) as [c1|] eqn:E1, (s2 !! l) as [c2|] eqn:E2.
  - f_equal. apply map_eq. intros k. specialize (Hrd l k). unfold rd in Hrd.
    by rewrite E1, E2 in Hrd.
  - destruct (proj1 Hdom) as [? ?]; done.
  - destruct (proj2 Hdom) as [? ?]; done.
  - done.
Qed.

Lemma rd_fill3 (s : gmap positive (gmap string Q)) low l k :
  is_Some (s !! low) →
  rd (fill (fill (fill s low ResourcePods) low ResourceCPU) low ResourceMemory) l k
  = if decide (l = low ∧ isBasicResource k = true ∧ rd s low k = None)
    then Some MaxResourcePercentage else rd s l k.
Proof.
  intros Hl. case_decide as Hd.
  - destruct Hd as (-> & Hb & Hn).
    apply isBasicResource_true in Hb as [->|[->| ->]].
    + apply rd_fill_old, rd_fill_new; [by rewrite fill_is_Some|].
      rewrite rd_fill_ne; [done|by right].
    + apply rd_fill_new; [by rewrite !fill_is_Some|].
      rewrite !rd_fill_ne; [done|by right..].
    + by apply rd_fill_old, rd_fill_old, rd_fill_new.
  - destruct (rd s l k) as [v|] eqn:E.
    + by apply rd_fill_old, rd_fill_old, rd_fill_old.
    + destruct (decide (l = low)) as [->|Hne].
      * assert (isBasicResource k ≠ true) as Hb by (intros Hb; by apply Hd).
        rewrite isBasicResource_true in Hb.
        rewrite !rd_fill_ne; [done|right; intros <-; apply Hb; auto..].
      * rewrite !rd_fill_ne; [done|left; done..].
Qed.

Lemma rd_wr3 (s : gmap positive (gmap string Q)) tgt l k :
  is_Some (s !! tgt) →
  rd (wr (wr (wr s tgt ResourcePods MaxResourcePercentage)
             tgt ResourceCPU MaxResourcePercentage)
         tgt ResourceMemory MaxResourcePercentage) l k
  = if decide (l = tgt ∧ isBasicResource k = true)
    then Some MaxResourcePercentage else rd s l k.
Proof.
  intros Ht. case_decide as Hd.
  - destruct Hd as (-> & Hb).
    apply isBasicResource_true in Hb as [->|[->| ->]].
    + apply rd_wr_keep, rd_wr_eq. by rewrite wr_is_Some.
    + apply rd_wr_eq. by rewrite !wr_is_Some.
    + by apply rd_wr_keep, rd_wr_keep, rd_wr_eq.
  - destruct (decide (l = tgt)) as [->|Hne].
    + assert (isBasicResource k ≠ true) as Hb by (intros Hb; by apply Hd).
      rewrite isBasicResource_true in Hb.
      rewrite !rd_wr_ne; [done|right; intros <-; apply Hb; auto..].
    + rewrite !rd_wr_ne; [done|left; done..].
Qed.

Lemma rd_openTarget (s : gmap positive (gmap string Q)) tgt names l k :
  is_Some (s !! tgt) →
  rd (openTarget s tgt names) l k
  = if decide (l = tgt ∧ isBasicResource k = false ∧ k ∈ names)
    then Some MaxResourcePercentage else rd s l k.
Proof.
  intros Ht. case_decide as Hd.
  - destruct Hd as (-> & Hb & Hin). by apply rd_openTarget_elem.
  - apply rd_openTarget_other.
    destruct (decide (l = tgt)) as [->|Hne]; [|by left]. right.
    destruct (decide (k ∈ names)); [|by left]. right.
    destruct (isBasicResource k); [done|]. exfalso. by apply Hd.
Qed.

Lemma rd_defaulted (s : gmap positive (gmap string Q)) low tgt l k :
  is_Some (s !! low) → is_Some (s !! tgt) →
  rd (defaulted order s low tgt) l k = defaultedEntry s low tgt l k.
Proof.
  intros Hl Ht. unfold defaulted, defaultedEntry.
  set (s1 := fill (fill (fill s low ResourcePods) low ResourceCPU) low ResourceMemory).
  set (s2 := wr (wr (wr s1 tgt _ _) tgt _ _) tgt _ _).
  assert (is_Some (s1 !! tgt)) as Ht1 by (unfold s1; by rewrite !fill_is_Some).
  assert (is_Some (s2 !! tgt)) as Ht2 by (unfold s2; by rewrite !wr_is_Some).
  assert (is_Some (s2 !! low)) as [c2 Hc2]
    by (unfold s2, s1; by rewrite !wr_is_Some, !fill_is_Some).
  assert (∀ l k, rd s2 l k =
            if decide (l = tgt ∧ isBasicResource k = true) then Some MaxResourcePercentage
            else if decide (l = low ∧ isBasicResource k = true ∧ rd s low k = None)
                 then Some MaxResourcePercentage else rd s l k) as Hs2.
  { intros l0 k0. unfold s2. rewrite rd_wr3 by done. case_decide; [done|].
    unfold s1. by rewrite rd_fill3. }
  rewrite Hc2. simpl. rewrite rd_openTarget by done. rewrite Hs2.
  assert (∀ k, isBasicResource k = false →
               k ∈ range_order order (dom c2) ↔ is_Some (rd s low k)) as Hkeys.
  { intros k0 Hb. rewrite (range_order_perm order), elem_of_elements.
    rewrite <- (rd_dom s2 low c2 k0 Hc2), Hs2.
    rewrite decide_False by (intros [_ ?]; congruence).
    rewrite decide_False by (intros (_ & ? & _); congruence). done. }
  destruct (isBasicResource k) eqn:Hb.
  - rewrite decide_False by (intros (_ & ? & _); done).
    destruct (decide (l = tgt)) as [->|Hne].
    + rewrite decide_True by done. by rewrite decide_True by auto.
    + rewrite decide_False by (intros [? _]; done).
      rewrite (decide_False (P := l = tgt ∧ _)) by (intros [? _]; done). done.
  - rewrite (decide_False (P := l = tgt ∧ false = true)) by (intros [_ ?]; done).
    rewrite (decide_False (P := l = low ∧ false = true ∧ _)) by (intros (_ & ? & _); done).
    destruct (decide (l = tgt)) as [->|Hne].
    + destruct (decide (is_Some (rd s low k))) as [Hp|Hp].
      * rewrite decide_True by (split_and!; [done..|by apply Hkeys]).
        by rewrite decide_True by auto.
      * rewrite decide_False by (intros (_ & _ & Hin); by apply Hkeys in Hin).
        rewrite decide_False by (intros [_ [?|?]]; done). done.
    + rewrite decide_False by (intros (? & _); done).
      rewrite decide_False by (intros (? & _); done). done.
Qed.

End Entries.

(** ** The continuation predicate *)

Lemma CmpInt64_reached_zero (q : Quantity) :
  (CmpInt64 q 0 <? 1)%Z = true ↔ (q <= 0)%Q.
Proof.
  unfold CmpInt64. change (inject_Z 0) with 0%Q. rewrite Qle_alt.
  destruct (q ?= 0)%Q; split; intros H; try reflexivity; try discriminate.
  by destruct H.
Qed.

Lemma continueEvictionLoop_false (total : gmap string Q) names :
  continueEvictionLoop total names = false ↔
  ∃ name q, name ∈ names ∧ total !! name = Some q ∧ (q <= 0)%Q.
Proof.
  induction names as [|n names IH]; simpl.
  - split; [done|]. intros (name & q & Hin & _). by apply elem_of_nil in Hin.
  - destruct (total !! n) as [q|] eqn:E.
    + destruct (CmpInt64 q 0 <? 1)%Z eqn:Hq.
      * split; [intros _|done]. exists n, q. split_and!; [by left|done|].
        by apply CmpInt64_reached_zero.
      * rewrite IH. split.
        -- intros (name & q' & Hin & Hq'). exists name, q'. split; [by right|done].
        -- intros (name & q' & Hin & Hl & Hq'). exists name, q'.
           apply elem_of_cons in Hin as [->|Hin]; [|done].
           rewrite E in Hl. injection Hl as <-.
           apply CmpInt64_reached_zero in Hq'. congruence.
    + rewrite IH. split.
      * intros (name & q' & Hin & Hq'). exists name, q'. split; [by right|done].
      * intros (name & q' & Hin & Hl & Hq'). exists name, q'.
        apply elem_of_cons in Hin as [->|Hin]; [congruence|done].
Qed.

(** C2: the continuation predicate of [HighNodeUtilization] returns false
    exactly when some tracked resource kind's total available amount is
    zero or less, and true when every tracked amount is positive; the node
    usage plays no part. *)
Theorem continueEvictionCond_stops_at_zero order nodeUsage (total : gmap string Q) :
  (continueEvictionCond order nodeUsage total = false ↔
     ∃ name q, total !! name = Some q ∧ (q <= 0)%Q) ∧
  (continueEvictionCond order nodeUsage total = true ↔
     ∀ name q, total !! name = Some q → (0 < q)%Q).
Proof.
  assert (continueEvictionCond order nodeUsage total = false ↔
            ∃ name q, total !! name = Some q ∧ (q <= 0)%Q) as Hfalse.
  { unfold continueEvictionCond. rewrite continueEvictionLoop_false. split.
    - intros (name & q & _ & Hq). by exists name, q.
    - intros (name & q & Hl & Hq). exists name, q. split; [|done].
      rewrite (range_order_perm order). apply elem_of_elements, elem_of_dom.
      by rewrite Hl. }
  split; [done|]. split.
  - intros Ht name q Hl. destruct (Qlt_le_dec 0 q) as [|Hle]; [done|].
    assert (continueEvictionCond order nodeUsage total = false) as Hf
      by (apply Hfalse; by exists name, q).
    congruence.
  - intros Hpos. apply not_false_iff_true. intros E.
    apply Hfalse in E as (name & q & Hl & Hq). apply Hpos in Hl.
    exfalso. by apply (Qlt_not_le 0 q).
Qed.

(** ** Classification *)

Lemma classifyNodes_source (usages : list NodeUsage) f g nu :
  nu ∈ (classifyNodes usages f g).1 ↔ nu ∈ usages ∧ f (node nu) nu = true.
Proof.
  induction usages as [|u usages IH]; simpl.
  - rewrite !elem_of_nil. tauto.
  - destruct (classifyNodes usages f g) as [src dst]. simpl in *.
    destruct (f (node u) u) eqn:Hf; simpl; rewrite ?elem_of_cons, IH.
    + split; [intros [->|[? ?]]; auto|intros [[->|?] ?]; auto].
    + split; [intros [? ?]; auto|intros [[->|?] ?]; [congruence|auto]].
Qed.

Lemma classifyNodes_destination (usages : list NodeUsage) f g nu :
  nu ∈ (classifyNodes usages f g).2 ↔ nu ∈ usages ∧ g (node nu) nu = true.
Proof.
  induction usages as [|u usages IH]; simpl.
  - rewrite !elem_of_nil. tauto.
  - destruct (classifyNodes usages f g) as [src dst]. simpl in *.
    destruct (g (node u) u) eqn:Hg; simpl; rewrite ?elem_of_cons, IH.
    + split; [intros [->|[? ?]]; auto|intros [[->|?] ?]; auto].
    + split; [intros [? ?]; auto|intros [[->|?] ?]; [congruence|auto]].
Qed.

Section Predicates.

Context (E : Collaborators).

(** C6: the receiver predicate of [HighNodeUtilization] holds exactly of
    the nodes that are schedulable and not of low utilization. *)
Theorem destinationFilter_schedulable_not_low (n : Node) (usage : NodeUsage) :
  destinationFilter E n usage = true ↔
  IsNodeUnschedulable n = false ∧ isNodeWithLowUtilization E usage = false.
Proof.
  unfold destinationFilter.
  destruct (IsNodeUnschedulable n), (isNodeWithLowUtilization E usage);
    simpl; split; (intros [? ?] || intros ?); try done.
Qed.

(** C5: the donor and the receiver predicate of [HighNodeUtilization] never
    both hold of a node and its usage; so the two classified sequences
    share no element, and a node of which neither predicate holds is in
    neither. *)
Theorem classification_disjoint :
  (∀ n usage, ¬ (sourceFilter E n usage = true ∧ destinationFilter E n usage = true)) ∧
  ∀ usages sourceNodes destinationNodes,
    classifyNodes usages (sourceFilter E) (destinationFilter E)
      = (sourceNodes, destinationNodes) →
    (∀ nu, nu ∈ sourceNodes → nu ∉ destinationNodes) ∧
    (∀ nu, sourceFilter E (node nu) nu = false →
           destinationFilter E (node nu) nu = false →
           (nu ∉ sourceNodes) ∧ (nu ∉ destinationNodes)) ∧
    (∀ nu, nu ∈ sourceNodes ∨ nu ∈ destinationNodes → nu ∈ usages).
Proof.
  assert (∀ n usage, ¬ (sourceFilter E n usage = true ∧ destinationFilter E n usage = true))
    as Hex.
  { intros n usage [Hs Hd]. unfold sourceFilter, destinationFilter in *.
    destruct (IsNodeUnschedulable n); [done|]. rewrite Hs in Hd. done. }
  split; [done|]. intros usages src dst Hcl.
  pose proof (classifyNodes_source usages (sourceFilter E) (destinationFilter E)) as Hsrc.
  pose proof (classifyNodes_destination usages (sourceFilter E) (destinationFilter E)) as Hdst.
  rewrite Hcl in Hsrc, Hdst. simpl in *. split_and!.
  - intros nu Hin Hin'. apply Hsrc in Hin as [_ Hs]. apply Hdst in Hin' as [_ Hd].
    by apply (Hex (node nu) nu).
  - intros nu Hs Hd. split.
    + intros Hin. apply Hsrc in Hin as [_ ?]. congruence.
    + intros Hin. apply Hdst in Hin as [_ ?]. congruence.
  - intros nu [Hin|Hin]; [by apply Hsrc in Hin as [? _]|by apply Hdst in Hin as [? _]].
Qed.

End Predicates.

(** ** The threshold validator *)

Section ValidatorProperties.

Context (order : RangeOrder) (ext : ResourceName → bool).

Lemma Qle_bool_false x y : Qle_bool x y = false ↔ (y < x)%Q.
Proof.
  rewrite <- not_true_iff_false, Qle_bool_iff. split.
  - apply Qnot_le_lt.
  - apply Qlt_not_le.
Qed.

Lemma inRange_false u p : inRange u p = false ↔ outOfRange u p.
Proof.
  unfold inRange, outOfRange.
  rewrite andb_false_iff, orb_false_iff, !Qle_bool_false. tauto.
Qed.

Lemma offends_true u (m : gmap string Q) name :
  offends u m name = true ↔ ∃ p, m !! name = Some p ∧ outOfRange u p.
Proof.
  unfold offends. destruct (m !! name) as [p|].
  - rewrite negb_true_iff, inRange_false. split; [by exists p|by intros (? & [= <-] & ?)].
  - split; [done|by intros (? & ? & ?)].
Qed.

Lemma findOffender_Some u (m : gmap string Q) name :
  findOffender order u m = Some name → ∃ p, m !! name = Some p ∧ outOfRange u p.
Proof. intros Hf. apply find_some in Hf as [_ Hf]. by apply offends_true. Qed.

Lemma findOffender_None u (m : gmap string Q) name p :
  findOffender order u m = None → m !! name = Some p → ¬ outOfRange u p.
Proof.
  intros Hf Hl Hout. unfold findOffender in Hf.
  assert (offends u m name = true) as Ho by (apply offends_true; by exists p).
  rewrite (find_none _ _ Hf name) in Ho; [done|].
  apply list_elem_of_In. rewrite (range_order_perm order).
  apply elem_of_elements, elem_of_dom. by rewrite Hl.
Qed.

Lemma validateThresholds_past_presence_and_kinds dev (low target : gmap string Q) :
  size low ≠ 0 → size target ≠ 0 →
  (∀ name, name ∈ dom low ∨ name ∈ dom target → supportedResource ext name = true) →
  validateThresholds order ext dev (Some low) (Some target) =
  match findOffender order false low with
  | Some name => Some (notInRange name)
  | None =>
      match findOffender order dev target with
      | Some name => Some (notInRange name)
      | None => None
      end
  end.
Proof.
  intros Hl Ht Hs. unfold validateThresholds.
  apply Nat.eqb_neq in Hl, Ht. rewrite Hl, Ht. simpl.
  replace (forallb _ _) with true; [done|]. symmetry.
  apply forallb_forall. intros name Hin. apply Hs.
  apply list_elem_of_In, elem_of_app in Hin.
  rewrite !(range_order_perm order), !elem_of_elements in Hin. done.
Qed.

(** C8, as the validator has it: for a configuration whose two maps are
    non-empty and name only cpu, memory, pods or extended kinds, a
    percentage outside [0,100] makes the validation fail with the range
    error naming a kind whose percentage is out of range, a target
    percentage above 100 not counting when [UseDeviationThresholds] is
    set; with nothing out of range the validation succeeds. *)
Theorem validateThresholds_range dev (low target : gmap string Q) :
  size low ≠ 0 → size target ≠ 0 →
  (∀ name, name ∈ dom low ∨ name ∈ dom target → supportedResource ext name = true) →
  ((∃ name, violates dev low target name) →
   ∃ name, violates dev low target name ∧
           validateThresholds order ext dev (Some low) (Some target)
           = Some (notInRange name)) ∧
  ((∀ name, ¬ violates dev low target name) →
   validateThresholds order ext dev (Some low) (Some target) = None) ∧
  (dev = true →
   (∀ name p, low !! name = Some p →
              (MinResourcePercentage <= p)%Q ∧ (p <= MaxResourcePercentage)%Q) →
   (∀ name p, target !! name = Some p → (MinResourcePercentage <= p)%Q) →
   validateThresholds order ext dev (Some low) (Some target) = None).
Proof.
  intros Hl Ht Hs.
  rewrite (validateThresholds_past_presence_and_kinds dev low target Hl Ht Hs).
  assert ((∀ name, ¬ violates dev low target name) →
          match findOffender order false low with
          | Some name => Some (notInRange name)
          | None => match findOffender order dev target with
                    | Some name => Some (notInRange name)
                    | None => None
                    end
          end = None) as Hnone.
  { intros Hno.
    destruct (findOffender order false low) as [name|] eqn:E1.
    { exfalso. apply (Hno name). left. by eapply findOffender_Some. }
    destruct (findOffender order dev target) as [name|] eqn:E2; [|done].
    exfalso. apply (Hno name). right. by eapply findOffender_Some. }
  split_and!.
  - intros (bad & Hbad).
    destruct (findOffender order false low) as [name|] eqn:E1.
    { exists name. split; [|done]. left. by eapply findOffender_Some. }
    destruct (findOffender order dev target) as [name|] eqn:E2.
    { exists name. split; [|done]. right. by eapply findOffender_Some. }
    exfalso. destruct Hbad as [(p & Hp & Hout)|(p & Hp & Hout)].
    + by eapply (findOffender_None false low).
    + by eapply (findOffender_None dev target).
  - done.
  - intros -> Hlow Htgt. apply Hnone. intros name [(p & Hp & Hout)|(p & Hp & Hout)].
    + destruct (Hlow _ _ Hp) as [H0 H100].
      destruct Hout as [Hout|[_ Hout]]; by eapply Qlt_not_le.
    + destruct Hout as [Hout|[? _]]; [|done].
      eapply Qlt_not_le; [done|]. by eapply Htgt.
Qed.

End ValidatorProperties.

(** ** The entry point, stage by stage *)

Section EntryPoint.

Context (E : Collaborators) (order : RangeOrder).

Lemma fresh_map_unallocated (h : heap) : maps h !! fresh (dom (maps h)) = None.
Proof. apply not_elem_of_dom, is_fresh. Qed.

Lemma withFreshTarget_maps_old h c cfg l :
  is_Some (maps h !! l) → maps (withFreshTarget h c cfg) !! l = maps h !! l.
Proof.
  intros Hl. unfold withFreshTarget. simpl. apply lookup_insert_ne.
  intros <-. rewrite fresh_map_unallocated in Hl. by destruct Hl.
Qed.

Lemma withFreshTarget_cfg h c cfg :
  cfgs (withFreshTarget h c cfg) !! c
  = Some (mkThresholds (UseDeviationThresholds cfg) (Thresholds cfg)
            (Some (fresh (dom (maps h)))) (NumberOfNodes cfg)).
Proof. unfold withFreshTarget. simpl. apply lookup_insert_eq. Qed.

Lemma withFreshTarget_target h c cfg :
  maps (withFreshTarget h c cfg) !! fresh (dom (maps h)) = Some ∅.
Proof. unfold withFreshTarget. simpl. apply lookup_insert_eq. Qed.

(** The strategy's validation, run where the target map is the new one:
    the check on the target map cannot fire. *)
Lemma validateHighUtilizationStrategyConfig_after_reset h c cfg :
  validateHighUtilizationStrategyConfig (validateThresholdsHigh E) (Some c)
    (withFreshTarget h c cfg)
  = Some (match validateThresholdsHigh E (withFreshTarget h c cfg) (Some c) with
          | Some e => Some ("thresholds config is not valid: " ++ e)
          | None => None
          end, withFreshTarget h c cfg).
Proof.
  unfold validateHighUtilizationStrategyConfig.
  erewrite bind_Some; [|apply deref_Some, withFreshTarget_cfg].
  simpl. unfold len.
  erewrite bind_Some; [|erewrite bind_Some; [done|]; unfold contents;
                        by rewrite withFreshTarget_target].
  rewrite map_size_empty. simpl. unfold bind, ask, ret.
  by destruct (validateThresholdsHigh E (withFreshTarget h c cfg) (Some c)).
Qed.

(** Lines 61-127, once the defaulting is done: the store is only read. *)
Lemma tail_run nodes prio nodeFit params c cfg h :
  nodeResourceUtilizationThresholds params = Some c →
  cfgs h !! c = Some cfg →
  (do cfg <- deref (Some c);
   do resourceNames <- ask (λ h, getResourceNames E h (TargetThresholds cfg));
   do usages <- ask (λ h, getNodeUsage E h nodes (Some c) resourceNames);
   let '(sourceNodes, highNodes) :=
     classifyNodes usages (sourceFilter E) (destinationFilter E) in
   if (length sourceNodes =? 0)%nat then ret NoUnderutilizedNode
   else
   do params <- derefParams (Some params);
   do cfg <- deref (nodeResourceUtilizationThresholds params);
   if (Z.of_nat (length sourceNodes) <=? NumberOfNodes cfg)%Z
   then ret (BelowNumberOfNodes (length sourceNodes) (NumberOfNodes cfg))
   else if (length sourceNodes =? length nodes)%nat then ret AllNodesUnderutilized
   else if (length highNodes =? 0)%nat then ret NoDestinationNode
   else
   ret (Evicted (evictPodsFromSourceNodes E sourceNodes highNodes
                   (Evictable E prio nodeFit)
                   resourceNames "HighNodeUtilization" (continueEvictionCond order)))) h
  = Some (guardedEviction E order prio nodeFit nodes (NumberOfNodes cfg)
            (getResourceNames E h (TargetThresholds cfg))
            (classified E h nodes (Some c) (TargetThresholds cfg)).1
            (classified E h nodes (Some c) (TargetThresholds cfg)).2, h).
Proof.
  intros Hn Hc.
  erewrite bind_Some; [|by apply deref_Some].
  unfold bind at 1, ask at 1. unfold bind at 1, ask at 1.
  unfold classified, guardedEviction.
  destruct (classifyNodes _ _ _) as [src high]. simpl.
  destruct (length src =? 0)%nat; [done|].
  unfold bind at 1, ret at 1. rewrite Hn.
  erewrite bind_Some; [|by apply deref_Some].
  by repeat case_match.
Qed.


(** The entry point as the succession of its stages. *)
Lemma HighNodeUtilization_stages strategy nodes h :
  HighNodeUtilization E order strategy nodes h =
  match validateNodeUtilizationParams E h (Params strategy) with
  | Some err => Some (InvalidParameters err, h)
  | None =>
  match GetPriorityFromStrategyParams E h (Params strategy) with
  | inr err => Some (NoThresholdPriority err, h)
  | inl prio =>
  match Params strategy with
  | None => None
  | Some params =>
  match nodeResourceUtilizationThresholds params with
  | None => None
  | Some c =>
  match cfgs h !! c with
  | None => None
  | Some cfg =>
  let h1 := withFreshTarget h c cfg in
  match validateThresholdsHigh E h1 (Some c) with
  | Some e => Some (InvalidConfig ("thresholds config is not valid: " ++ e), h1)
  | None =>
  match setDefaultForThresholds order (Some c) h1 with
  | None => None
  | Some (_, h2) =>
  match cfgs h2 !! c with
  | None => None
  | Some cfg2 =>
      Some (guardedEviction E order prio (NodeFit params) nodes (NumberOfNodes cfg2)
              (getResourceNames E h2 (TargetThresholds cfg2))
              (classified E h2 nodes (Some c) (TargetThresholds cfg2)).1
              (classified E h2 nodes (Some c) (TargetThresholds cfg2)).2, h2)
  end end end end end end end end.
Proof.
  unfold HighNodeUtilization. unfold bind at 1, ask at 1.
  destruct (validateNodeUtilizationParams E h (Params strategy)) as [err|]; [done|].
  unfold bind at 1, ask at 1.
  destruct (GetPriorityFromStrategyParams E h (Params strategy)) as [prio|err]; [|done].
  destruct (Params strategy) as [params|]; [|done]. simpl.
  unfold bind at 1, ret at 1. unfold bind at 1, make at 1.
  unfold bind at 1, setTargetThresholds at 1.
  destruct (nodeResourceUtilizationThresholds params) as [c|] eqn:Hn; [|done]. simpl.
  destruct (cfgs h !! c) as [cfg|] eqn:Hc; [|done]. simpl.
  fold (withFreshTarget h c cfg).
  erewrite bind_Some; [|apply validateHighUtilizationStrategyConfig_after_reset].
  destruct (validateThresholdsHigh E (withFreshTarget h c cfg) (Some c)) as [e|]; [done|].
  unfold bind at 1.
  destruct (setDefaultForThresholds order (Some c) (withFreshTarget h c cfg))
    as [[[] h2]|]; [|done].
  destruct (cfgs h2 !! c) as [cfg2|] eqn:Hc2.
  - by apply tail_run.
  - unfold bind at 1, deref. by rewrite Hc2.
Qed.


Lemma guardedEviction_reached prio nodeFit nodes n names src high :
  reachedClassification (guardedEviction E order prio nodeFit nodes n names src high).
Proof. unfold guardedEviction. by repeat case_match. Qed.

(** On its own, the strategy's validation does reject a configuration that
    carries target thresholds. *)
Lemma validateHighUtilizationStrategyConfig_rejects_target v h c cfg tgt (m : gmap string Q) :
  cfgs h !! c = Some cfg → TargetThresholds cfg = Some tgt →
  maps h !! tgt = Some m → size m ≠ 0 →
  validateHighUtilizationStrategyConfig v (Some c) h
  = Some (Some targetThresholdsNotApplicable, h).
Proof.
  intros Hc Ht Hm Hsize. unfold validateHighUtilizationStrategyConfig.
  erewrite bind_Some; [|by apply deref_Some]. rewrite Ht.
  erewrite bind_Some; [|unfold len; erewrite bind_Some; [done|];
                        unfold contents; by rewrite Hm].
  apply Nat.eqb_neq in Hsize. by rewrite Hsize.
Qed.

(** With a nil [Params], a call that passes the parameter check and the
    priority lookup panics at the first
    [strategy.Params.NodeResourceUtilizationThresholds]; whether such a
    call exists is for [validateNodeUtilizationParams] to say. *)
Lemma HighNodeUtilization_nil_Params strategy nodes h :
  Params strategy = None →
  HighNodeUtilization E order strategy nodes h =
  match validateNodeUtilizationParams E h None with
  | Some err => Some (InvalidParameters err, h)
  | None =>
      match GetPriorityFromStrategyParams E h None with
      | inr err => Some (NoThresholdPriority err, h)
      | inl _ => None
      end
  end.
Proof. intros Hp. rewrite HighNodeUtilization_stages, Hp. by repeat case_match. Qed.

(** A call that fails the strategy's validation leaves the caller with the
    new, empty target map. *)
Lemma HighNodeUtilization_invalid_config strategy nodes h params c cfg prio e :
  validateNodeUtilizationParams E h (Params strategy) = None →
  GetPriorityFromStrategyParams E h (Params strategy) = inl prio →
  Params strategy = Some params →
  nodeResourceUtilizationThresholds params = Some c →
  cfgs h !! c = Some cfg →
  validateThresholdsHigh E (withFreshTarget h c cfg) (Some c) = Some e →
  HighNodeUtilization E order strategy nodes h
  = Some (InvalidConfig ("thresholds config is not valid: " ++ e),
          withFreshTarget h c cfg).
Proof.
  intros Hv Hp Hs Hn Hc He.
  rewrite HighNodeUtilization_stages, Hv, Hp, Hs, Hn, Hc. cbv zeta. by rewrite He.
Qed.

(** C1, as the code has it: no call of [HighNodeUtilization] ends with the
    error "targetThresholds is not applicable for HighNodeUtilization",
    whatever target thresholds the caller supplied: the check runs after
    the target map has been replaced by an empty one. *)
Theorem HighNodeUtilization_never_rejects_target strategy nodes h o h' :
  HighNodeUtilization E order strategy nodes h = Some (o, h') →
  o ≠ InvalidConfig targetThresholdsNotApplicable.
Proof.
  rewrite HighNodeUtilization_stages. cbv zeta. intros Hrun Ho. subst o.
  repeat case_match; simplify_eq.
  match goal with
  | H : guardedEviction ?a ?b ?c ?d ?e ?f ?g ?i ?j = _ |- _ =>
      pose proof (guardedEviction_reached c d e f g i j) as Hr; rewrite H in Hr
  end. done.
Qed.

(** C7: a call that classified its nodes and found no more donors than
    [NumberOfNodes] (equality included) returns from one of the first two
    guards, before the eviction loop, and evicts nothing. *)
Theorem HighNodeUtilization_below_NumberOfNodes strategy nodes h o h' params c cfg' :
  HighNodeUtilization E order strategy nodes h = Some (o, h') →
  reachedClassification o →
  Params strategy = Some params →
  nodeResourceUtilizationThresholds params = Some c →
  cfgs h' !! c = Some cfg' →
  (Z.of_nat (length (classified E h' nodes (Some c) (TargetThresholds cfg')).1)
     <= NumberOfNodes cfg')%Z →
  (o = NoUnderutilizedNode ∨
   o = BelowNumberOfNodes
         (length (classified E h' nodes (Some c) (TargetThresholds cfg')).1)
         (NumberOfNodes cfg')) ∧
  evictions o = [].
Proof.
  rewrite HighNodeUtilization_stages. cbv zeta. intros Hrun Hreached Hs Hn Hc Hle.
  rewrite Hs, Hn in Hrun.
  repeat case_match; simplify_eq; try done.
  unfold guardedEviction.
  destruct (length _ =? 0)%nat; [by split; [left|]|].
  apply Z.leb_le in Hle. rewrite Hle. by split; [right|].
Qed.


Lemma wr_lookup_ne (s : gmap positive (gmap string Q)) l k v l' :
  l ≠ l' → wr s l k v !! l' = s !! l'.
Proof. intros Hne. unfold wr. by apply lookup_alter_ne. Qed.

Lemma fill_lookup_ne (s : gmap positive (gmap string Q)) l k l' :
  l ≠ l' → fill s l k !! l' = s !! l'.
Proof. intros Hne. unfold fill. destruct (rd s l k); [done|]. by apply wr_lookup_ne. Qed.

Lemma openTarget_lookup_ne (s : gmap positive (gmap string Q)) l names l' :
  l ≠ l' → openTarget s l names !! l' = s !! l'.
Proof.
  intros Hne. unfold openTarget. revert s.
  induction names as [|n names IH]; intros s; [done|]. simpl. rewrite IH.
  destruct (isBasicResource n); [done|]. by apply wr_lookup_ne.
Qed.

Lemma defaulted_lookup_other (s : gmap positive (gmap string Q)) low tgt l :
  low ≠ l → tgt ≠ l → defaulted order s low tgt !! l = s !! l.
Proof.
  intros Hl Ht. unfold defaulted.
  by rewrite openTarget_lookup_ne, !wr_lookup_ne, !fill_lookup_ne.
Qed.

Lemma defaultThreshold_nil_thresholds h c cfg name :
  cfgs h !! c = Some cfg → Thresholds cfg = None →
  defaultThreshold (Some c) name h = None.
Proof.
  intros Hc Hnil. unfold defaultThreshold.
  erewrite bind_Some; [|by apply deref_Some]. rewrite Hnil.
  erewrite bind_Some; [|unfold mapIndex; erewrite bind_Some; [done|done]].
  rewrite lookup_empty.
  erewrite bind_Some; [|by apply deref_Some]. by rewrite Hnil.
Qed.

(** With a nil thresholds map the defaulting panics at its first
    assignment. *)
Lemma setDefaultForThresholds_nil_thresholds h c cfg :
  cfgs h !! c = Some cfg → Thresholds cfg = None →
  setDefaultForThresholds order (Some c) h = None.
Proof.
  intros Hc Hnil. unfold setDefaultForThresholds. unfold bind at 1.
  by erewrite defaultThreshold_nil_thresholds.
Qed.


End EntryPoint.

(** ** The properties at sample inputs *)

Lemma continueEvictionCond_stops_at_zero_witness :
  continueEvictionCond canonical_order idleUsage
    {[ResourceCPU := 0%Q; ResourceMemory := 5%Q]} = false.
Proof.
  apply (proj1 (continueEvictionCond_stops_at_zero canonical_order idleUsage
                  {[ResourceCPU := 0%Q; ResourceMemory := 5%Q]})).
  exists ResourceCPU, 0%Q. split; [reflexivity|apply Qle_refl].
Defined.

Lemma setDefaultForThresholds_opens_target_witness :
  ∃ h' lowMap targetMap,
    setDefaultForThresholds canonical_order (Some 1%positive) (sampleHeap 0) = Some (tt, h') ∧
    cfgs h' = cfgs (sampleHeap 0) ∧
    maps h' !! 2%positive = Some lowMap ∧ maps h' !! 3%positive = Some targetMap ∧
    targetMap !! ResourceCPU = Some MaxResourcePercentage ∧
    targetMap !! ResourceMemory = Some MaxResourcePercentage ∧
    targetMap !! ResourcePods = Some MaxResourcePercentage ∧
    ∀ name, isBasicResource name = false →
            name ∈ dom lowMap ∨ is_Some (rd (maps (sampleHeap 0)) 2%positive name) →
            targetMap !! name = Some MaxResourcePercentage.
Proof.
  apply (setDefaultForThresholds_opens_target canonical_order (sampleHeap 0) 1%positive
           (mkThresholds false (Some 2%positive) (Some 3%positive) 0) 2%positive 3%positive).
  - reflexivity.
  - reflexivity.
  - reflexivity.
  - eexists. reflexivity.
  - eexists. reflexivity.
Defined.

Lemma setDefaultForThresholds_basic_kinds_witness :
  ∃ h' lowMap targetMap,
    setDefaultForThresholds canonical_order (Some 1%positive) (sampleHeap 0) = Some (tt, h') ∧
    maps h' !! 2%positive = Some lowMap ∧ maps h' !! 3%positive = Some targetMap ∧
    ∀ name, isBasicResource name = true →
      is_Some (lowMap !! name) ∧ is_Some (targetMap !! name) ∧
      (({[ResourceCPU := 20%Q; extendedResource := 30%Q]} : gmap string Q) !! name = None →
       lowMap !! name = Some MaxResourcePercentage) ∧
      (∀ v, 2%positive ≠ 3%positive →
            ({[ResourceCPU := 20%Q; extendedResource := 30%Q]} : gmap string Q) !! name = Some v →
            lowMap !! name = Some v) ∧
      (2%positive = 3%positive → lowMap !! name = Some MaxResourcePercentage).
Proof.
  apply (setDefaultForThresholds_basic_kinds canonical_order (sampleHeap 0) 1%positive
           (mkThresholds false (Some 2%positive) (Some 3%positive) 0) 2%positive 3%positive).
  - reflexivity.
  - reflexivity.
  - reflexivity.
  - reflexivity.
  - eexists. reflexivity.
Defined.

(** C4 does not hold of every configuration: when one map object is both
    the thresholds and the target thresholds, its entry cpu: 20 does not
    keep its value: the defaulting returns and leaves 100 there. *)
Lemma setDefaultForThresholds_aliased_overwrites :
  ∃ h' lowMap,
    cfgs aliasedHeap !! 1%positive
    = Some (mkThresholds false (Some 2%positive) (Some 2%positive) 0) ∧
    maps aliasedHeap !! 2%positive
    = Some {[ResourceCPU := 20%Q; extendedResource := 30%Q]} ∧
    ({[ResourceCPU := 20%Q; extendedResource := 30%Q]} : gmap string Q) !! ResourceCPU
    = Some 20%Q ∧
    setDefaultForThresholds canonical_order (Some 1%positive) aliasedHeap = Some (tt, h') ∧
    maps h' !! 2%positive = Some lowMap ∧
    lowMap !! ResourceCPU = Some MaxResourcePercentage ∧
    lowMap !! ResourceCPU ≠ Some 20%Q.
Proof.
  eexists _, _. split_and!.
  - reflexivity.
  - reflexivity.
  - reflexivity.
  - vm_compute. reflexivity.
  - vm_compute. reflexivity.
  - vm_compute. reflexivity.
  - vm_compute. discriminate.
Qed.

Lemma classification_disjoint_witness :
  ¬ (sourceFilter sampleCollaborators idleNode idleUsage = true ∧
     destinationFilter sampleCollaborators idleNode idleUsage = true) ∧
  idleUsage ∉ [busyUsage].
Proof.
  split.
  - apply (proj1 (classification_disjoint sampleCollaborators)).
  - apply (proj1 (proj2 (classification_disjoint sampleCollaborators)
                    [idleUsage; busyUsage] [idleUsage] [busyUsage] eq_refl)).
    apply list_elem_of_here.
Defined.

Lemma destinationFilter_schedulable_not_low_witness :
  destinationFilter sampleCollaborators busyNode busyUsage = true.
Proof.
  apply (proj2 (destinationFilter_schedulable_not_low sampleCollaborators busyNode busyUsage)).
  split; reflexivity.
Defined.

Example destinationFilter_cordoned :
  destinationFilter sampleCollaborators cordonedNode (mkUsage cordonedNode {[ResourceCPU := 90%Q]})
  = false.
Proof. reflexivity. Qed.

Lemma HighNodeUtilization_never_rejects_target_witness :
  ∃ h', HighNodeUtilization sampleCollaborators canonical_order sampleStrategy
          [idleNode; busyNode] (sampleHeap 0) = Some (Evicted [mkPod "idle"], h') ∧
        Evicted [mkPod "idle"] ≠ InvalidConfig targetThresholdsNotApplicable.
Proof.
  eexists. split.
  - vm_compute. reflexivity.
  - eapply (HighNodeUtilization_never_rejects_target sampleCollaborators canonical_order
              sampleStrategy [idleNode; busyNode] (sampleHeap 0)).
    vm_compute. reflexivity.
Defined.

Lemma HighNodeUtilization_below_NumberOfNodes_witness :
  ∃ h', HighNodeUtilization sampleCollaborators canonical_order sampleStrategy
          [idleNode; busyNode] (sampleHeap 1) = Some (BelowNumberOfNodes 1 1, h') ∧
        evictions (BelowNumberOfNodes 1 1) = [].
Proof.
  eexists. split; [vm_compute; reflexivity|].
  eapply (HighNodeUtilization_below_NumberOfNodes sampleCollaborators canonical_order
            sampleStrategy [idleNode; busyNode] (sampleHeap 1) (BelowNumberOfNodes 1 1) _
            (mkParams (Some 1%positive) false) 1%positive
            (mkThresholds false (Some 2%positive) (Some 4%positive) 1)).
  - vm_compute. reflexivity.
  - exact I.
  - reflexivity.
  - reflexivity.
  - vm_compute. reflexivity.
  - vm_compute. discriminate.
Defined.



(** With one map object supplied as thresholds and as target thresholds,
    the call points the field to a new map and fills the supplied object
    with the basic kinds it lacked. *)
Example HighNodeUtilization_aliased_supplied_map :
  ∃ o h' t,
    HighNodeUtilization sampleCollaborators canonical_order sampleStrategy
      [idleNode; busyNode] aliasedHeap = Some (o, h') ∧
    TargetThresholds <$> cfgs h' !! 1%positive = Some (Some t) ∧
    t ≠ 2%positive ∧
    maps h' !! 2%positive
    = Some {[ResourceCPU := 20%Q; extendedResource := 30%Q;
             ResourceMemory := 100%Q; ResourcePods := 100%Q]}.
Proof.
  eexists _, _, _. split_and!.
  - vm_compute. reflexivity.
  - vm_compute. reflexivity.
  - discriminate.
  - vm_compute. reflexivity.
Qed.

Lemma validateThresholds_range_witness :
  ∃ name,
    violates false {[ResourceCPU := 110%Q; ResourceMemory := 80%Q]}
                   {[ResourceCPU := 100%Q; ResourceMemory := 0%Q]} name ∧
    validateThresholds canonical_order sampleIsExtendedResourceName false
      (Some {[ResourceCPU := 110%Q; ResourceMemory := 80%Q]})
      (Some {[ResourceCPU := 100%Q; ResourceMemory := 0%Q]})
    = Some (notInRange name).
Proof.
  destruct (validateThresholds_range canonical_order sampleIsExtendedResourceName false
              {[ResourceCPU := 110%Q; ResourceMemory := 80%Q]}
              {[ResourceCPU := 100%Q; ResourceMemory := 0%Q]}) as (Hrange & _).
  - vm_compute. discriminate.
  - vm_compute. discriminate.
  - intros name Hin. rewrite !dom_insert_L, !dom_singleton_L in Hin.
    rewrite !elem_of_union, !elem_of_singleton in Hin.
    destruct Hin as [[-> | ->]|[-> | ->]]; reflexivity.
  - apply Hrange. exists ResourceCPU. left. exists 110%Q. split; [reflexivity|].
    right. split; reflexivity.
Defined.

(** C8 does not hold of every configuration: with an empty thresholds map,
    a target percentage of 110 under [UseDeviationThresholds] is neither
    accepted nor reported as out of range. *)
Lemma validateThresholds_empty_thresholds_first :
  validateThresholds canonical_order sampleIsExtendedResourceName true
    (Some ∅) (Some {[ResourceCPU := 110%Q]})
  = Some noThresholdConfigured.
Proof. reflexivity. Qed.

(** ** The cases of [TestValidateThresholds] *)

Example passing_nil_map_for_threshold :
  validateThresholds canonical_order sampleIsExtendedResourceName false None None
  = Some noThresholdConfigured.
Proof. reflexivity. Qed.

Example passing_no_threshold :
  validateThresholds canonical_order sampleIsExtendedResourceName false
    (Some ∅) (Some {[ResourceCPU := 100%Q; ResourceMemory := 0%Q]})
  = Some noThresholdConfigured.
Proof. reflexivity. Qed.

Example passing_no_target_threshold :
  validateThresholds canonical_order sampleIsExtendedResourceName false None (Some ∅)
  = Some noThresholdConfigured.
Proof. reflexivity. Qed.

Example passing_unsupported_resource_name :
  validateThresholds canonical_order sampleIsExtendedResourceName false
    (Some {[ResourceCPU := 40%Q; ResourceStorage := (51 # 2)%Q]})
    (Some {[ResourceCPU := 100%Q; ResourceMemory := 0%Q]})
  = Some unsupportedThreshold.
Proof. reflexivity. Qed.

Example passing_invalid_resource_name :
  validateThresholds canonical_order sampleIsExtendedResourceName false
    (Some {[ResourceCPU := 40%Q; "coolResource" := 42%Q]})
    (Some {[ResourceCPU := 100%Q; ResourceMemory := 0%Q]})
  = Some unsupportedThreshold.
Proof. reflexivity. Qed.

Example passing_invalid_resource_name_for_target_threshold :
  validateThresholds canonical_order sampleIsExtendedResourceName false
    (Some {[ResourceCPU := 100%Q; ResourceMemory := 0%Q]})
    (Some {[ResourceCPU := 40%Q; "coolResource" := 42%Q]})
  = Some unsupportedThreshold.
Proof. reflexivity. Qed.

Example passing_invalid_resource_value :
  validateThresholds canonical_order sampleIsExtendedResourceName false
    (Some {[ResourceCPU := 110%Q; ResourceMemory := 80%Q]})
    (Some {[ResourceCPU := 100%Q; ResourceMemory := 0%Q]})
  = Some "cpu threshold not in [0, 100] range".
Proof. reflexivity. Qed.

Example passing_invalid_resource_value_for_target_threshold :
  validateThresholds canonical_order sampleIsExtendedResourceName false
    (Some {[ResourceCPU := 100%Q; ResourceMemory := 0%Q]})
    (Some {[ResourceCPU := 110%Q; ResourceMemory := 80%Q]})
  = Some "cpu threshold not in [0, 100] range".
Proof. reflexivity. Qed.

Example passing_above_100_for_target_threshold_with_deviation :
  validateThresholds canonical_order sampleIsExtendedResourceName true
    (Some {[ResourceCPU := 100%Q; ResourceMemory := 0%Q]})
    (Some {[ResourceCPU := 110%Q; ResourceMemory := 80%Q]})
  = None.
Proof. reflexivity. Qed.

Example passing_valid_threshold_with_max_and_min :
  validateThresholds canonical_order sampleIsExtendedResourceName false
    (Some {[ResourceCPU := 100%Q; ResourceMemory := 0%Q]})
    (Some {[ResourceCPU := 100%Q; ResourceMemory := 0%Q]})
  = None.
Proof. reflexivity. Qed.

Example passing_valid_threshold_with_only_cpu :
  validateThresholds canonical_order sampleIsExtendedResourceName false
    (Some {[ResourceCPU := 10%Q]}) (Some {[ResourceCPU := 10%Q]})
  = None.
Proof. reflexivity. Qed.

Example passing_valid_threshold_with_cpu_memory_pods :
  validateThresholds canonical_order sampleIsExtendedResourceName false
    (Some {[ResourceCPU := 20%Q; ResourceMemory := 30%Q; ResourcePods := 40%Q]})
    (Some {[ResourceCPU := 20%Q; ResourceMemory := 30%Q; ResourcePods := 40%Q]})
  = None.
Proof. reflexivity. Qed.

Example passing_extended_resource_name :
  validateThresholds canonical_order sampleIsExtendedResourceName false
    (Some {[ResourceCPU := 40%Q; extendedResource := 50%Q]})
    (Some {[ResourceCPU := 40%Q; extendedResource := 50%Q]})
  = None.
Proof. reflexivity. Qed.

Example passing_valid_threshold_with_only_extended_resource :
  validateThresholds canonical_order sampleIsExtendedResourceName false
    (Some {[extendedResource := 80%Q]}) (Some {[extendedResource := 80%Q]})
  = None.
Proof. reflexivity. Qed.

Example passing_valid_threshold_with_all_kinds :
  validateThresholds canonical_order sampleIsExtendedResourceName false
    (Some {[ResourceCPU := 20%Q; ResourceMemory := 30%Q; ResourcePods := 40%Q;
            extendedResource := 50%Q]})
    (Some {[ResourceCPU := 20%Q; ResourceMemory := 30%Q; ResourcePods := 40%Q;
            extendedResource := 50%Q]})
  = None.
Proof. reflexivity. Qed.

(** * Further properties *)

(** ** The defaulting: panics, entries, iteration order, idempotence *)

Section MoreDefaults.
Context (order : RangeOrder).

Lemma defaultThreshold_panics h p name :
  (∀ c cfg low, p = Some c → cfgs h !! c = Some cfg → Thresholds cfg = Some low →
                maps h !! low = None) →
  defaultThreshold p name h = None.
Proof.
  intros Hbad. unfold defaultThreshold. unfold bind at 1, deref at 1.
  destruct p as [c|]; [|done]. destruct (cfgs h !! c) as [cfg|] eqn:Hc; [|done]. simpl.
  destruct (Thresholds cfg) as [low|] eqn:Hlow.
  - unfold bind at 1, mapIndex, bind, contents.
    by rewrite (Hbad c cfg low eq_refl Hc Hlow).
  - unfold bind at 1, mapIndex, bind, contents, ret. simpl. rewrite lookup_empty.
    unfold deref. rewrite Hc. simpl. by rewrite Hlow.
Qed.

Lemma defaultTarget_panics h c cfg name :
  cfgs h !! c = Some cfg →
  (∀ tgt, TargetThresholds cfg = Some tgt → maps h !! tgt = None) →
  defaultTarget (Some c) name h = None.
Proof.
  intros Hc Hbad. unfold defaultTarget.
  erewrite bind_Some; [|by apply deref_Some]. unfold assign.
  destruct (TargetThresholds cfg) as [tgt|]; [|done]. by rewrite (Hbad tgt eq_refl).
Qed.

Lemma setDefaultForThresholds_allocated p h :
  is_Some (setDefaultForThresholds order p h) →
  ∃ c cfg low tgt,
    p = Some c ∧ cfgs h !! c = Some cfg ∧
    Thresholds cfg = Some low ∧ TargetThresholds cfg = Some tgt ∧
    is_Some (maps h !! low) ∧ is_Some (maps h !! tgt).
Proof.
  intros Hret. destruct p as [c|]; [|by destruct Hret].
  destruct (cfgs h !! c) as [cfg|] eqn:Hc.
  2:{ unfold setDefaultForThresholds in Hret. unfold bind at 1 in Hret.
      rewrite defaultThreshold_panics in Hret; [by destruct Hret|]. congruence. }
  destruct (Thresholds cfg) as [low|] eqn:Hlow.
  2:{ erewrite setDefaultForThresholds_nil_thresholds in Hret by done. by destruct Hret. }
  destruct (maps h !! low) as [lowMap|] eqn:Hl.
  2:{ unfold setDefaultForThresholds in Hret. unfold bind at 1 in Hret.
      rewrite defaultThreshold_panics in Hret; [by destruct Hret|]. congruence. }
  assert (is_Some (maps h !! low)) as Hl' by (by rewrite Hl).
  destruct (TargetThresholds cfg) as [tgt|] eqn:Htgt.
  + destruct (maps h !! tgt) as [tgtMap|] eqn:Ht.
    { exists c, cfg, low, tgt. rewrite Ht. by split_and!. }
    exfalso. unfold setDefaultForThresholds in Hret.
    erewrite bind_Some in Hret; [|by eapply defaultThreshold_fill].
    erewrite bind_Some in Hret; [|eapply defaultThreshold_fill; [done..|]; simpl;
                                  by rewrite fill_is_Some].
    erewrite bind_Some in Hret; [|eapply defaultThreshold_fill; [done..|]; simpl;
                                  by rewrite !fill_is_Some].
    unfold bind at 1 in Hret.
    erewrite defaultTarget_panics in Hret; [by destruct Hret|done|].
    simpl. intros tgt0 Ht0. rewrite Htgt in Ht0. injection Ht0 as <-.
    apply eq_None_not_Some. rewrite !fill_is_Some, Ht. by intros [? ?].
  + exfalso. unfold setDefaultForThresholds in Hret.
    erewrite bind_Some in Hret; [|by eapply defaultThreshold_fill].
    erewrite bind_Some in Hret; [|eapply defaultThreshold_fill; [done..|]; simpl;
                                  by rewrite fill_is_Some].
    erewrite bind_Some in Hret; [|eapply defaultThreshold_fill; [done..|]; simpl;
                                  by rewrite !fill_is_Some].
    unfold bind at 1 in Hret.
    erewrite defaultTarget_panics in Hret; [by destruct Hret|done|]. congruence.
Qed.

(** X2: the defaulting returns exactly when its pointer and the two maps of the
    configuration are non-nil; otherwise it panics, on the nil pointer or
    on the first assignment to an entry of a nil map. *)
Theorem setDefaultForThresholds_returns_iff p h :
  is_Some (setDefaultForThresholds order p h) ↔
  ∃ c cfg low tgt,
    p = Some c ∧ cfgs h !! c = Some cfg ∧
    Thresholds cfg = Some low ∧ TargetThresholds cfg = Some tgt ∧
    is_Some (maps h !! low) ∧ is_Some (maps h !! tgt).
Proof.
  split; [apply setDefaultForThresholds_allocated|].
  intros (c & cfg & low & tgt & -> & Hc & Hlow & Htgt & Hl & Ht).
  by erewrite setDefaultForThresholds_defaulted.
Qed.

(** X1: the defaulting, entry by entry: on a configuration with two distinct
    allocated maps, the thresholds keep every entry they had and gain 100
    for each basic kind they lacked, and nothing else; the target gets 100
    for every basic kind and every kind of the thresholds and keeps its
    other entries; no other map and no configuration changes. *)
Theorem setDefaultForThresholds_entries h c cfg low tgt (lowMap0 targetMap0 : gmap string Q) :
  cfgs h !! c = Some cfg →
  Thresholds cfg = Some low → TargetThresholds cfg = Some tgt →
  maps h !! low = Some lowMap0 → maps h !! tgt = Some targetMap0 → low ≠ tgt →
  ∃ h' lowMap targetMap,
    setDefaultForThresholds order (Some c) h = Some (tt, h') ∧
    cfgs h' = cfgs h ∧
    maps h' !! low = Some lowMap ∧ maps h' !! tgt = Some targetMap ∧
    (∀ k, lowMap !! k = match lowMap0 !! k with
                        | Some v => Some v
                        | None => if isBasicResource k
                                  then Some MaxResourcePercentage else None
                        end) ∧
    (∀ k, targetMap !! k = if isBasicResource k then Some MaxResourcePercentage
                           else match lowMap0 !! k with
                                | Some _ => Some MaxResourcePercentage
                                | None => targetMap0 !! k
                                end) ∧
    (∀ l, l ≠ low → l ≠ tgt → maps h' !! l = maps h !! l).
Proof.
  intros Hc Hlow Htgt Hl0 Ht0 Hne.
  assert (is_Some (maps h !! low)) as Hl by (by rewrite Hl0).
  assert (is_Some (maps h !! tgt)) as Ht by (by rewrite Ht0).
  pose proof (proj2 (defaulted_is_Some order (maps h) low tgt low) Hl) as [lowMap HlowMap].
  pose proof (proj2 (defaulted_is_Some order (maps h) low tgt tgt) Ht) as [targetMap HtargetMap].
  exists (mkHeap (cfgs h) (defaulted order (maps h) low tgt)), lowMap, targetMap.
  split; [by eapply setDefaultForThresholds_defaulted|]. simpl.
  assert (∀ k, rd (maps h) low k = lowMap0 !! k) as Hrdl
    by (intros k; unfold rd; by rewrite Hl0).
  assert (∀ k, rd (maps h) tgt k = targetMap0 !! k) as Hrdt
    by (intros k; unfold rd; by rewrite Ht0).
  split_and!; [done..| | |].
  - intros k. transitivity (rd (defaulted order (maps h) low tgt) low k).
    { unfold rd. by rewrite HlowMap. }
    rewrite rd_defaulted by done. unfold defaultedEntry.
    rewrite decide_False by (intros [? _]; done). rewrite Hrdl.
    destruct (lowMap0 !! k) as [v|] eqn:E.
    + by rewrite decide_False by (intros (_ & _ & ?); done).
    + destruct (isBasicResource k).
      * by rewrite decide_True.
      * by rewrite decide_False by (intros (_ & ? & _); done).
  - intros k. transitivity (rd (defaulted order (maps h) low tgt) tgt k).
    { unfold rd. by rewrite HtargetMap. }
    rewrite rd_defaulted by done. unfold defaultedEntry. rewrite Hrdl, Hrdt.
    destruct (isBasicResource k).
    + by rewrite decide_True by auto.
    + destruct (lowMap0 !! k) as [v|] eqn:E.
      * by rewrite decide_True by (split; [done|right; by eexists]).
      * rewrite decide_False by (intros [_ [?|[? ?]]]; done).
        by rewrite decide_False by (intros (? & _); done).
  - intros l Hl1 Hl2. by apply defaulted_lookup_other.
Qed.

End MoreDefaults.

(** X3: the order in which Go ranges over the thresholds map has no bearing on
    the defaulting: whatever the two orders, the outcome (the store left,
    or the panic) is the same. *)
Theorem setDefaultForThresholds_order_independent (order order' : RangeOrder) p h :
  setDefaultForThresholds order p h = setDefaultForThresholds order' p h.
Proof.
  assert (∀ o1 o2 : RangeOrder,
            is_Some (setDefaultForThresholds o1 p h) →
            setDefaultForThresholds o1 p h = setDefaultForThresholds o2 p h) as Hsome.
  { intros o1 o2 Hret.
    destruct (setDefaultForThresholds_allocated o1 p h Hret) as
      (c & cfg & low & tgt & -> & Hc & Hlow & Htgt & Hl & Ht).
    rewrite (setDefaultForThresholds_defaulted o1 h c cfg low tgt) by done.
    rewrite (setDefaultForThresholds_defaulted o2 h c cfg low tgt) by done.
    do 3 f_equal. apply store_ext.
    - intros l. by rewrite !defaulted_is_Some.
    - intros l k. by rewrite !rd_defaulted. }
  destruct (setDefaultForThresholds order p h) as [r|] eqn:E1.
  - rewrite <- E1. apply Hsome. by rewrite E1.
  - destruct (setDefaultForThresholds order' p h) as [r|] eqn:E2; [|done].
    rewrite <- E1, <- E2. symmetry. apply Hsome. by rewrite E2.
Qed.

(** X4: the defaulting is idempotent: run again on the store it left, in any
    iteration order, it returns and leaves that store as it is. *)
Theorem setDefaultForThresholds_idempotent (order order' : RangeOrder) p h h' :
  setDefaultForThresholds order p h = Some (tt, h') →
  setDefaultForThresholds order' p h' = Some (tt, h').
Proof.
  intros Hrun.
  destruct (setDefaultForThresholds_allocated order p h) as
    (c & cfg & low & tgt & -> & Hc & Hlow & Htgt & Hl & Ht); [by rewrite Hrun|].
  rewrite (setDefaultForThresholds_defaulted order h c cfg low tgt) in Hrun by done.
  injection Hrun as <-.
  assert (is_Some (defaulted order (maps h) low tgt !! low)) as Hl'
    by (by rewrite defaulted_is_Some).
  assert (is_Some (defaulted order (maps h) low tgt !! tgt)) as Ht'
    by (by rewrite defaulted_is_Some).
  rewrite (setDefaultForThresholds_defaulted order' _ c cfg low tgt) by done.
  simpl. do 3 f_equal. apply store_ext.
  - intros l. by rewrite !defaulted_is_Some.
  - intros l k. rewrite (rd_defaulted order' _ low tgt l k Hl' Ht').
    unfold defaultedEntry at 1.
    assert (∀ k, isBasicResource k = true →
                 is_Some (rd (defaulted order (maps h) low tgt) low k)) as Hbasic.
    { intros k0 Hb. rewrite rd_defaulted by done. unfold defaultedEntry.
      repeat case_decide; try done.
      destruct (rd (maps h) low k0) eqn:E; [done|].
      exfalso. match goal with H : ¬ (low = low ∧ _) |- _ => apply H end. done. }
    assert (∀ k, is_Some (rd (defaulted order (maps h) low tgt) low k) →
                 isBasicResource k = true ∨ is_Some (rd (maps h) low k)) as Hold.
    { intros k0. rewrite rd_defaulted by done. unfold defaultedEntry.
      repeat case_decide; intros Hs; try tauto. }
    rewrite (rd_defaulted order _ low tgt l k Hl Ht). unfold defaultedEntry at 1 2.
    destruct (decide (l = tgt ∧ (isBasicResource k = true ∨ is_Some (rd (maps h) low k))))
      as [[-> Hk]|Hn1].
    + rewrite decide_True; [done|]. split; [done|].
      destruct Hk as [Hk|Hk]; [by left|right].
      rewrite rd_defaulted by done. unfold defaultedEntry.
      repeat case_decide; done.
    + rewrite decide_False.
      2:{ intros [-> [Hb|Hs]]; apply Hn1; [by auto|]. split; [done|]. by apply Hold. }
      rewrite decide_False; [done|].
      intros (-> & Hb & Hnone). apply Hbasic in Hb. rewrite Hnone in Hb. by destruct Hb.
Qed.

(** ** The strategy's validation on its own *)



(** X6: a configuration that carries target thresholds is rejected with
    "targetThresholds is not applicable for HighNodeUtilization" whatever
    [validateThresholdsHigh] thinks of it, and the store is not changed. *)
Theorem validateHighUtilizationStrategyConfig_target_first
    (v : heap → option positive → option string) h c cfg tgt (m : gmap string Q) k p :
  cfgs h !! c = Some cfg → TargetThresholds cfg = Some tgt →
  maps h !! tgt = Some m → m !! k = Some p →
  validateHighUtilizationStrategyConfig v (Some c) h
  = Some (Some targetThresholdsNotApplicable, h).
Proof.
  intros Hc Ht Hm Hk.
  apply (validateHighUtilizationStrategyConfig_rejects_target v h c cfg tgt m Hc Ht Hm).
  intros Hsz. apply map_size_empty_iff in Hsz. subst m. by rewrite lookup_empty in Hk.
Qed.

(** ** More on the continuation predicate *)

Lemma continueEvictionCond_false order nodeUsage (total : gmap string Q) :
  continueEvictionCond order nodeUsage total = false ↔
  ∃ name q, total !! name = Some q ∧ (q <= 0)%Q.
Proof.
  unfold continueEvictionCond. rewrite continueEvictionLoop_false. split.
  - intros (name & q & _ & Hq). by exists name, q.
  - intros (name & q & Hl & Hq). exists name, q. split; [|done].
    rewrite (range_order_perm order). apply elem_of_elements, elem_of_dom.
    by rewrite Hl.
Qed.

(** X7: the continuation predicate depends neither on the order in which Go
    ranges over the ledger nor on the node usage it is given. *)
Theorem continueEvictionCond_order_independent order order' nodeUsage nodeUsage'
    (total : gmap string Q) :
  continueEvictionCond order nodeUsage total = continueEvictionCond order' nodeUsage' total.
Proof.
  destruct (continueEvictionCond order nodeUsage total) eqn:E1,
           (continueEvictionCond order' nodeUsage' total) eqn:E2; try done.
  - apply continueEvictionCond_false in E2.
    apply (continueEvictionCond_false order nodeUsage) in E2. congruence.
  - apply continueEvictionCond_false in E1.
    apply (continueEvictionCond_false order' nodeUsage') in E1. congruence.
Qed.

(** X8: once the predicate has said stop it keeps saying stop while the ledger
    only shrinks: if every tracked amount of [total] is still tracked in
    [total'] and is no larger there, stopping on [total] means stopping on
    [total']. *)
Theorem continueEvictionCond_stays_stopped order order' nodeUsage nodeUsage'
    (total total' : gmap string Q) :
  (∀ name q, total !! name = Some q → ∃ q', total' !! name = Some q' ∧ (q' <= q)%Q) →
  continueEvictionCond order nodeUsage total = false →
  continueEvictionCond order' nodeUsage' total' = false.
Proof.
  intros Hshrink Hstop. apply continueEvictionCond_false in Hstop as (name & q & Hl & Hq).
  apply continueEvictionCond_false.
  destruct (Hshrink name q Hl) as (q' & Hl' & Hq'). exists name, q'.
  split; [done|]. by eapply Qle_trans.
Qed.

(** ** More on the two predicates *)

(** X9: a node is left out of both groups exactly when it is unschedulable and
    not of low utilization; an unschedulable node of low utilization is
    still a donor. *)
Theorem neither_filter_iff (E : Collaborators) (n : Node) (usage : NodeUsage) :
  (sourceFilter E n usage = false ∧ destinationFilter E n usage = false ↔
   IsNodeUnschedulable n = true ∧ isNodeWithLowUtilization E usage = false) ∧
  (isNodeWithLowUtilization E usage = true → sourceFilter E n usage = true).
Proof.
  unfold sourceFilter, destinationFilter.
  destruct (IsNodeUnschedulable n), (isNodeWithLowUtilization E usage); simpl;
    split; try done; split; intros [? ?]; done.
Qed.

(** ** More on the entry point *)

Section MoreEntryPoint.
Context (E : Collaborators) (order : RangeOrder).

(** What a call that got as far as classifying went through. *)
Lemma HighNodeUtilization_reached strategy nodes h o h' :
  HighNodeUtilization E order strategy nodes h = Some (o, h') →
  reachedClassification o →
  ∃ params c cfg prio cfg',
    Params strategy = Some params ∧
    nodeResourceUtilizationThresholds params = Some c ∧
    cfgs h !! c = Some cfg ∧
    validateNodeUtilizationParams E h (Params strategy) = None ∧
    GetPriorityFromStrategyParams E h (Params strategy) = inl prio ∧
    validateThresholdsHigh E (withFreshTarget h c cfg) (Some c) = None ∧
    setDefaultForThresholds order (Some c) (withFreshTarget h c cfg) = Some (tt, h') ∧
    cfgs h' !! c = Some cfg' ∧
    o = guardedEviction E order prio (NodeFit params) nodes (NumberOfNodes cfg')
          (getResourceNames E h' (TargetThresholds cfg'))
          (classified E h' nodes (Some c) (TargetThresholds cfg')).1
          (classified E h' nodes (Some c) (TargetThresholds cfg')).2.
Proof.
  rewrite HighNodeUtilization_stages. cbv zeta. intros Hrun Hreached.
  repeat case_match; simplify_eq; try done.
  match goal with u : unit |- _ => destruct u end.
  eexists _, _, _, _, _. split_and!; done.
Qed.

(** What a call that failed one of the checks went through. *)
Lemma HighNodeUtilization_not_reached strategy nodes h o h' :
  HighNodeUtilization E order strategy nodes h = Some (o, h') →
  ¬ reachedClassification o →
  (h' = h ∧ ((∃ err, o = InvalidParameters err) ∨ (∃ err, o = NoThresholdPriority err))) ∨
  ∃ params c cfg e,
    Params strategy = Some params ∧
    nodeResourceUtilizationThresholds params = Some c ∧
    cfgs h !! c = Some cfg ∧
    o = InvalidConfig ("thresholds config is not valid: " ++ e) ∧
    h' = withFreshTarget h c cfg ∧
    validateThresholdsHigh E (withFreshTarget h c cfg) (Some c) = Some e.
Proof.
  rewrite HighNodeUtilization_stages. cbv zeta. intros Hrun Hnot.
  repeat case_match; simplify_eq;
    first [ exfalso; apply Hnot; apply guardedEviction_reached
          | left; split; [done|]; first [left; by eexists | right; by eexists]
          | right; by eexists _, _, _, _ ].
Qed.

Lemma withFreshTarget_cfg_other h c cfg c' :
  c ≠ c' → cfgs (withFreshTarget h c cfg) !! c' = cfgs h !! c'.
Proof. intros Hne. unfold withFreshTarget. simpl. by apply lookup_insert_ne. Qed.

(** The store a call leaves once the defaulting has run. *)
Lemma defaulted_after_reset h c cfg h' :
  setDefaultForThresholds order (Some c) (withFreshTarget h c cfg) = Some (tt, h') →
  ∃ low,
    Thresholds cfg = Some low ∧
    is_Some (maps (withFreshTarget h c cfg) !! low) ∧
    h' = mkHeap (cfgs (withFreshTarget h c cfg))
           (defaulted order (maps (withFreshTarget h c cfg)) low (fresh (dom (maps h)))).
Proof.
  intros Hrun.
  destruct (setDefaultForThresholds_allocated order (Some c) (withFreshTarget h c cfg))
    as (c0 & cfg0 & low & tgt & [= <-] & Hc0 & Hlow & Htgt & Hl & Ht);
    [by rewrite Hrun|].
  rewrite withFreshTarget_cfg in Hc0. injection Hc0 as <-. simpl in Hlow, Htgt.
  injection Htgt as <-.
  erewrite setDefaultForThresholds_defaulted in Hrun;
    [|apply withFreshTarget_cfg|done|done|done|done].
  injection Hrun as <-. by exists low.
Qed.


(** X10: a call evicts exactly when all four guards let it through: there is a
    donor, there are more donors than [NumberOfNodes], not every node is a
    donor, and there is a receiver; the pods evicted are then those the
    driver returns for the two classified groups, the evictability filter
    built from the resolved priority and [NodeFit], the resource names of
    the target map and the continuation predicate. *)
Theorem HighNodeUtilization_evicts_iff strategy nodes h o h' params c cfg' prio :
  HighNodeUtilization E order strategy nodes h = Some (o, h') →
  reachedClassification o →
  Params strategy = Some params →
  nodeResourceUtilizationThresholds params = Some c →
  cfgs h' !! c = Some cfg' →
  GetPriorityFromStrategyParams E h (Params strategy) = inl prio →
  ((∃ pods, o = Evicted pods) ↔
   (0 < length (classified E h' nodes (Some c) (TargetThresholds cfg')).1)%nat ∧
   (NumberOfNodes cfg'
      < Z.of_nat (length (classified E h' nodes (Some c) (TargetThresholds cfg')).1))%Z ∧
   length (classified E h' nodes (Some c) (TargetThresholds cfg')).1 ≠ length nodes ∧
   (0 < length (classified E h' nodes (Some c) (TargetThresholds cfg')).2)%nat) ∧
  (∀ pods, o = Evicted pods →
     pods = evictPodsFromSourceNodes E
              (classified E h' nodes (Some c) (TargetThresholds cfg')).1
              (classified E h' nodes (Some c) (TargetThresholds cfg')).2
              (Evictable E prio (NodeFit params))
              (getResourceNames E h' (TargetThresholds cfg'))
              "HighNodeUtilization" (continueEvictionCond order)).
Proof.
  intros Hrun Hreached Hs Hn Hc Hp.
  destruct (HighNodeUtilization_reached strategy nodes h o h' Hrun Hreached)
    as (params0 & c0 & cfg0 & prio0 & cfg0' & Hs0 & Hn0 & _ & _ & Hp0 & _ & _ & Hc0 & ->).
  simplify_eq. unfold guardedEviction.
  destruct (length _ =? 0)%nat eqn:H0.
  { apply Nat.eqb_eq in H0. split; [|done]. split; [by intros [? ?]|]. lia. }
  apply Nat.eqb_neq in H0.
  destruct (_ <=? _)%Z eqn:H1.
  { apply Z.leb_le in H1. split; [|done]. split; [by intros [? ?]|]. lia. }
  apply Z.leb_gt in H1.
  destruct (length _ =? length nodes)%nat eqn:H2.
  { apply Nat.eqb_eq in H2. split; [|done]. split; [by intros [? ?]|]. tauto. }
  apply Nat.eqb_neq in H2.
  destruct (length _ =? 0)%nat eqn:H3.
  { apply Nat.eqb_eq in H3. split; [|done]. split; [by intros [? ?]|]. lia. }
  apply Nat.eqb_neq in H3. split.
  - split; [intros _; split_and!; first [done|lia]|intros _; by eexists].
  - rewrite Hp in Hp0. injection Hp0 as <-. by intros pods [= <-].
Qed.

(** X11: the two last guards: a call ends with "all nodes are underutilized"
    exactly when the donors, more than [NumberOfNodes] of them, are as many
    as the nodes; it ends with "no node is available" exactly when the
    first three guards pass and there is no receiver. *)
Theorem HighNodeUtilization_late_guards strategy nodes h o h' params c cfg' :
  HighNodeUtilization E order strategy nodes h = Some (o, h') →
  reachedClassification o →
  Params strategy = Some params →
  nodeResourceUtilizationThresholds params = Some c →
  cfgs h' !! c = Some cfg' →
  (o = AllNodesUnderutilized ↔
   (0 < length (classified E h' nodes (Some c) (TargetThresholds cfg')).1)%nat ∧
   (NumberOfNodes cfg'
      < Z.of_nat (length (classified E h' nodes (Some c) (TargetThresholds cfg')).1))%Z ∧
   length (classified E h' nodes (Some c) (TargetThresholds cfg')).1 = length nodes) ∧
  (o = NoDestinationNode ↔
   (0 < length (classified E h' nodes (Some c) (TargetThresholds cfg')).1)%nat ∧
   (NumberOfNodes cfg'
      < Z.of_nat (length (classified E h' nodes (Some c) (TargetThresholds cfg')).1))%Z ∧
   length (classified E h' nodes (Some c) (TargetThresholds cfg')).1 ≠ length nodes ∧
   length (classified E h' nodes (Some c) (TargetThresholds cfg')).2 = 0%nat).
Proof.
  intros Hrun Hreached Hs Hn Hc.
  destruct (HighNodeUtilization_reached strategy nodes h o h' Hrun Hreached)
    as (params0 & c0 & cfg0 & prio0 & cfg0' & Hs0 & Hn0 & _ & _ & Hp0 & _ & _ & Hc0 & ->).
  simplify_eq. unfold guardedEviction.
  destruct (length _ =? 0)%nat eqn:H0.
  { apply Nat.eqb_eq in H0. split; (split; [done|lia]). }
  apply Nat.eqb_neq in H0.
  destruct (_ <=? _)%Z eqn:H1.
  { apply Z.leb_le in H1. split; (split; [done|lia]). }
  apply Z.leb_gt in H1.
  destruct (length _ =? length nodes)%nat eqn:H2.
  { apply Nat.eqb_eq in H2. split; [split; [intros _; split_and!; [lia|done|done]|done]|].
    split; [done|tauto]. }
  apply Nat.eqb_neq in H2.
  destruct (length _ =? 0)%nat eqn:H3.
  { apply Nat.eqb_eq in H3. split; [split; [done|tauto]|].
    split; [intros _; split_and!; [lia|done|done|done]|done]. }
  apply Nat.eqb_neq in H3. split; (split; [done|tauto]).
Qed.

(** X12: a call that fails the parameter check or the priority lookup leaves the
    store as it found it. *)
Theorem HighNodeUtilization_failed_checks_keep_store strategy nodes h o h' :
  HighNodeUtilization E order strategy nodes h = Some (o, h') →
  (∃ err, o = InvalidParameters err ∨ o = NoThresholdPriority err) →
  h' = h.
Proof.
  intros Hrun (err & Ho).
  assert (¬ reachedClassification o) as Hnot
    by (destruct Ho as [-> | ->]; intros []).
  destruct (HighNodeUtilization_not_reached strategy nodes h o h' Hrun Hnot)
    as [[-> _]|(params & c & cfg & e & _ & _ & _ & -> & _ & _)]; [done|by destruct Ho].
Qed.

(** X13: a call that fails the strategy's validation has already written to the
    caller's configuration: the store it leaves is the one where the
    [TargetThresholds] field points to a new, empty map, the error is the
    one [validateThresholdsHigh] returned on that store, behind
    "thresholds config is not valid: ", and every map that existed, the
    supplied target map included, and every other configuration is as it
    was. *)
Theorem HighNodeUtilization_invalid_config_effect strategy nodes h err h' :
  HighNodeUtilization E order strategy nodes h = Some (InvalidConfig err, h') →
  ∃ e params c cfg t,
    err = "thresholds config is not valid: " ++ e ∧
    Params strategy = Some params ∧
    nodeResourceUtilizationThresholds params = Some c ∧
    cfgs h !! c = Some cfg ∧
    h' = withFreshTarget h c cfg ∧
    validateThresholdsHigh E (withFreshTarget h c cfg) (Some c) = Some e ∧
    maps h !! t = None ∧
    cfgs h' !! c = Some (mkThresholds (UseDeviationThresholds cfg) (Thresholds cfg)
                           (Some t) (NumberOfNodes cfg)) ∧
    maps h' !! t = Some ∅ ∧
    (∀ l m, maps h !! l = Some m → maps h' !! l = Some m) ∧
    (∀ c', c ≠ c' → cfgs h' !! c' = cfgs h !! c').
Proof.
  intros Hrun.
  destruct (HighNodeUtilization_not_reached strategy nodes h _ h' Hrun (λ x, x))
    as [[_ [[? ?]|[? ?]]]|(params & c & cfg & e & Hs & Hn & Hc & [= ->] & -> & He)];
    [done|done|].
  exists e, params, c, cfg, (fresh (dom (maps h))). split_and!; [done..| | | | |].
  - apply fresh_map_unallocated.
  - apply withFreshTarget_cfg.
  - apply withFreshTarget_target.
  - intros l m Hl. rewrite (withFreshTarget_maps_old h c cfg); [done|by rewrite Hl].
  - intros c' Hne. by apply withFreshTarget_cfg_other.
Qed.

(** X14: a call that gets as far as classifying has written to the caller's
    thresholds map: each of cpu, memory and pods that was missing is now
    there with 100; the entries that were there are kept and no other entry
    is added. *)
Theorem HighNodeUtilization_fills_thresholds strategy nodes h o h' params c cfg low
    (lowMap0 : gmap string Q) :
  HighNodeUtilization E order strategy nodes h = Some (o, h') →
  reachedClassification o →
  Params strategy = Some params →
  nodeResourceUtilizationThresholds params = Some c →
  cfgs h !! c = Some cfg →
  Thresholds cfg = Some low → maps h !! low = Some lowMap0 →
  ∃ cfg' lowMap,
    cfgs h' !! c = Some cfg' ∧ Thresholds cfg' = Some low ∧
    maps h' !! low = Some lowMap ∧
    ∀ k, lowMap !! k = match lowMap0 !! k with
                       | Some v => Some v
                       | None => if isBasicResource k
                                 then Some MaxResourcePercentage else None
                       end.
Proof.
  intros Hrun Hreached Hs Hn Hc Hlow Hl0.
  destruct (HighNodeUtilization_reached strategy nodes h o h' Hrun Hreached)
    as (params0 & c0 & cfg0 & prio0 & cfg0' & Hs0 & Hn0 & Hc0 & _ & _ & _ & Hdef & _ & _).
  simplify_eq.
  destruct (defaulted_after_reset h c cfg h' Hdef) as (low0 & Hlow0 & Hal & ->).
  simplify_eq.
  assert (is_Some (maps h !! low)) as Hl by (by rewrite Hl0).
  assert (low ≠ fresh (dom (maps h))) as Hne.
  { intros ->. rewrite fresh_map_unallocated in Hl. by destruct Hl. }
  assert (is_Some (maps (withFreshTarget h c cfg) !! fresh (dom (maps h)))) as Ht
    by (by rewrite withFreshTarget_target).
  pose proof (proj2 (defaulted_is_Some order _ low (fresh (dom (maps h))) low) Hal)
    as [lowMap HlowMap].
  eexists _, lowMap. simpl. split_and!; [apply withFreshTarget_cfg|done|done|].
  intros k. transitivity (rd (defaulted order (maps (withFreshTarget h c cfg)) low
                                (fresh (dom (maps h)))) low k).
  { unfold rd. by rewrite HlowMap. }
  rewrite rd_defaulted by done. unfold defaultedEntry.
  rewrite decide_False by (intros [? _]; done).
  assert (rd (maps (withFreshTarget h c cfg)) low k = lowMap0 !! k) as ->.
  { unfold rd. by rewrite (withFreshTarget_maps_old h c cfg), Hl0. }
  destruct (lowMap0 !! k) as [v|] eqn:Ek.
  - by rewrite decide_False by (intros (_ & _ & ?); done).
  - destruct (isBasicResource k).
    + by rewrite decide_True.
    + by rewrite decide_False by (intros (_ & ? & _); done).
Qed.

(** X15: what a call leaves alone, however it ends: a configuration keeps its
    fields other than [TargetThresholds], and keeps that one too unless it
    is the strategy's own; a map that existed keeps its contents unless it
    is the thresholds map of the strategy's configuration. *)
Theorem HighNodeUtilization_frame strategy nodes h o h' :
  HighNodeUtilization E order strategy nodes h = Some (o, h') →
  (∀ c' cfg0, cfgs h !! c' = Some cfg0 →
     ∃ cfg1, cfgs h' !! c' = Some cfg1 ∧
             UseDeviationThresholds cfg1 = UseDeviationThresholds cfg0 ∧
             Thresholds cfg1 = Thresholds cfg0 ∧
             NumberOfNodes cfg1 = NumberOfNodes cfg0 ∧
             (Params strategy ≫= nodeResourceUtilizationThresholds ≠ Some c' →
              cfg1 = cfg0)) ∧
  (∀ l m, maps h !! l = Some m →
     (∀ params c cfg, Params strategy = Some params →
                      nodeResourceUtilizationThresholds params = Some c →
                      cfgs h !! c = Some cfg → Thresholds cfg ≠ Some l) →
     maps h' !! l = Some m).
Proof.
  intros Hrun.
  assert (∀ params c cfg,
            Params strategy = Some params →
            nodeResourceUtilizationThresholds params = Some c →
            cfgs h !! c = Some cfg →
            ∀ c' cfg0, cfgs h !! c' = Some cfg0 →
            ∃ cfg1, cfgs (withFreshTarget h c cfg) !! c' = Some cfg1 ∧
                    UseDeviationThresholds cfg1 = UseDeviationThresholds cfg0 ∧
                    Thresholds cfg1 = Thresholds cfg0 ∧
                    NumberOfNodes cfg1 = NumberOfNodes cfg0 ∧
                    (Params strategy ≫= nodeResourceUtilizationThresholds ≠ Some c' →
                     cfg1 = cfg0)) as Hcfgs.
  { intros params c cfg Hs Hn Hc c' cfg0 Hc'. destruct (decide (c = c')) as [<-|Hne].
    - rewrite withFreshTarget_cfg. simplify_eq. eexists. split_and!; [done..|].
      rewrite Hs. simpl. by rewrite Hn.
    - rewrite withFreshTarget_cfg_other by done. by exists cfg0. }
  assert (reachedClassification o ∨ ¬ reachedClassification o) as [Hreached|Hnot]
    by (destruct o; simpl; tauto).
  - destruct (HighNodeUtilization_reached strategy nodes h o h' Hrun Hreached)
      as (params & c & cfg & prio & cfg' & Hs & Hn & Hc & _ & _ & _ & Hdef & _ & _).
    destruct (defaulted_after_reset h c cfg h' Hdef) as (low & Hlow & Hal & ->).
    split; [by apply (Hcfgs params c cfg)|].
    intros l m Hl Hnotlow. simpl. rewrite defaulted_lookup_other.
    + rewrite (withFreshTarget_maps_old h c cfg); [done|by rewrite Hl].
    + intros ->. by apply (Hnotlow params c cfg).
    + intros <-. by rewrite fresh_map_unallocated in Hl.
  - destruct (HighNodeUtilization_not_reached strategy nodes h o h' Hrun Hnot)
      as [[-> _]|(params & c & cfg & e & Hs & Hn & Hc & -> & -> & _)].
    + split; [|done]. intros c' cfg0 Hc'. by exists cfg0.
    + split; [by apply (Hcfgs params c cfg)|].
      intros l m Hl _. rewrite (withFreshTarget_maps_old h c cfg); [done|by rewrite Hl].
Qed.

(** X16: a call on a configuration with non-nil parameters, a non-nil
    configuration and a non-nil thresholds map returns, whatever the
    collaborators answer: it does not panic. *)
Theorem HighNodeUtilization_returns strategy nodes h params c cfg low :
  Params strategy = Some params →
  nodeResourceUtilizationThresholds params = Some c →
  cfgs h !! c = Some cfg →
  Thresholds cfg = Some low → is_Some (maps h !! low) →
  is_Some (HighNodeUtilization E order strategy nodes h).
Proof.
  intros Hs Hn Hc Hlow Hl. rewrite HighNodeUtilization_stages, Hs, Hn, Hc. cbv zeta.
  destruct (validateNodeUtilizationParams E h (Some params)); [done|].
  destruct (GetPriorityFromStrategyParams E h (Some params)); [|done].
  destruct (validateThresholdsHigh E (withFreshTarget h c cfg) (Some c)); [done|].
  erewrite setDefaultForThresholds_defaulted;
    [|apply withFreshTarget_cfg|done|done
     |by rewrite (withFreshTarget_maps_old h c cfg)|by rewrite withFreshTarget_target].
  cbn [cfgs]. by rewrite withFreshTarget_cfg.
Qed.

(** X17: a call panics in three situations only, each past the parameter check
    and the priority lookup: [Params] is nil; the thresholds pointer is
    nil; or the thresholds map is nil and [validateThresholdsHigh] has let
    it through.  (Every non-nil pointer is taken to point to an allocated
    object.) *)
Theorem HighNodeUtilization_panics_iff strategy nodes h :
  (∀ params c, Params strategy = Some params →
               nodeResourceUtilizationThresholds params = Some c →
               is_Some (cfgs h !! c)) →
  (∀ params c cfg low, Params strategy = Some params →
                       nodeResourceUtilizationThresholds params = Some c →
                       cfgs h !! c = Some cfg → Thresholds cfg = Some low →
                       is_Some (maps h !! low)) →
  HighNodeUtilization E order strategy nodes h = None ↔
  validateNodeUtilizationParams E h (Params strategy) = None ∧
  (∃ prio, GetPriorityFromStrategyParams E h (Params strategy) = inl prio) ∧
  (Params strategy = None ∨
   ∃ params, Params strategy = Some params ∧
     (nodeResourceUtilizationThresholds params = None ∨
      ∃ c cfg, nodeResourceUtilizationThresholds params = Some c ∧
               cfgs h !! c = Some cfg ∧
               validateThresholdsHigh E (withFreshTarget h c cfg) (Some c) = None ∧
               Thresholds cfg = None)).
Proof.
  intros Hcfg Hmaps. rewrite HighNodeUtilization_stages. cbv zeta.
  destruct (validateNodeUtilizationParams E h (Params strategy)) as [err|] eqn:Hv.
  { split; [done|]. by intros [? _]. }
  destruct (GetPriorityFromStrategyParams E h (Params strategy)) as [prio|err] eqn:Hp.
  2:{ split; [done|]. by intros (_ & [? ?] & _). }
  destruct (Params strategy) as [params|] eqn:Hs.
  2:{ split; [|done]. intros _. split_and!; [done|by eexists|by left]. }
  destruct (nodeResourceUtilizationThresholds params) as [c|] eqn:Hn.
  2:{ split; [|done]. intros _. split_and!; [done|by eexists|].
      right. exists params. split; [done|by left]. }
  destruct (Hcfg params c eq_refl Hn) as [cfg Hc]. rewrite Hc.
  destruct (validateThresholdsHigh E (withFreshTarget h c cfg) (Some c)) as [e|] eqn:He.
  { split; [done|]. intros (_ & _ & [?|(params0 & [= <-] & [?|(c0 & cfg0 & ? & ? & ? & _)])]);
      [done|congruence|]. simplify_eq. }
  destruct (Thresholds cfg) as [low|] eqn:Hlow.
  - erewrite setDefaultForThresholds_defaulted;
      [|apply withFreshTarget_cfg|done|done
       |rewrite (withFreshTarget_maps_old h c cfg); by eapply Hmaps
       |by rewrite withFreshTarget_target].
    cbn [cfgs]. rewrite withFreshTarget_cfg. split; [done|].
    intros (_ & _ & [?|(params0 & [= <-] & [?|(c0 & cfg0 & ? & ? & ? & ?)])]);
      [done|congruence|]. simplify_eq.
  - erewrite setDefaultForThresholds_nil_thresholds; [|apply withFreshTarget_cfg|done].
    split; [|done]. intros _. split_and!; [done|by eexists|].
    right. exists params. split; [done|]. right. by exists c, cfg.
Qed.

End MoreEntryPoint.

(** ** The further properties at sample inputs *)

Lemma setDefaultForThresholds_entries_witness :
  ∃ h' lowMap targetMap,
    setDefaultForThresholds canonical_order (Some 1%positive) (sampleHeap 0) = Some (tt, h') ∧
    maps h' !! 2%positive = Some lowMap ∧ maps h' !! 3%positive = Some targetMap ∧
    lowMap !! extendedResource = Some 30%Q ∧
    lowMap !! ResourceMemory = Some MaxResourcePercentage ∧
    targetMap !! extendedResource = Some MaxResourcePercentage.
Proof.
  destruct (setDefaultForThresholds_entries canonical_order (sampleHeap 0) 1%positive
              (mkThresholds false (Some 2%positive) (Some 3%positive) 0) 2%positive 3%positive
              {[ResourceCPU := 20%Q; extendedResource := 30%Q]} {[ResourceCPU := 50%Q]})
    as (h' & lowMap & targetMap & Hrun & _ & Hl & Ht & Hlow & Htgt & _).
  - reflexivity.
  - reflexivity.
  - reflexivity.
  - reflexivity.
  - reflexivity.
  - discriminate.
  - exists h', lowMap, targetMap. split_and!; [done..| | |].
    + rewrite Hlow. reflexivity.
    + rewrite Hlow. reflexivity.
    + rewrite Htgt. reflexivity.
Defined.

Lemma setDefaultForThresholds_returns_iff_witness :
  is_Some (setDefaultForThresholds canonical_order (Some 1%positive) (sampleHeap 0)).
Proof.
  apply (proj2 (setDefaultForThresholds_returns_iff canonical_order (Some 1%positive)
                  (sampleHeap 0))).
  exists 1%positive, (mkThresholds false (Some 2%positive) (Some 3%positive) 0),
         2%positive, 3%positive.
  split_and!; try reflexivity; eexists; reflexivity.
Defined.

Lemma setDefaultForThresholds_idempotent_witness :
  ∃ h', setDefaultForThresholds canonical_order (Some 1%positive) (sampleHeap 0)
        = Some (tt, h') ∧
        setDefaultForThresholds canonical_order (Some 1%positive) h' = Some (tt, h').
Proof.
  eexists. split; [vm_compute; reflexivity|].
  eapply (setDefaultForThresholds_idempotent canonical_order canonical_order
            (Some 1%positive) (sampleHeap 0)).
  vm_compute. reflexivity.
Defined.


Lemma validateHighUtilizationStrategyConfig_target_first_witness :
  validateHighUtilizationStrategyConfig (validateThresholdsHigh sampleCollaborators)
    (Some 1%positive) (sampleHeap 0)
  = Some (Some targetThresholdsNotApplicable, sampleHeap 0).
Proof.
  apply (validateHighUtilizationStrategyConfig_target_first
           (validateThresholdsHigh sampleCollaborators) (sampleHeap 0) 1%positive
           (mkThresholds false (Some 2%positive) (Some 3%positive) 0) 3%positive
           {[ResourceCPU := 50%Q]} ResourceCPU 50%Q); reflexivity.
Defined.

Lemma continueEvictionCond_stays_stopped_witness :
  continueEvictionCond canonical_order busyUsage
    {[ResourceCPU := (-1)%Q; ResourceMemory := 5%Q]} = false.
Proof.
  apply (continueEvictionCond_stays_stopped canonical_order canonical_order
           idleUsage busyUsage {[ResourceCPU := 0%Q]}
           {[ResourceCPU := (-1)%Q; ResourceMemory := 5%Q]}).
  - intros name q Hl. apply lookup_singleton_Some in Hl as [<- <-].
    exists (-1)%Q. split; [reflexivity|]. unfold Qle. simpl. lia.
  - reflexivity.
Defined.

Lemma neither_filter_iff_witness :
  sourceFilter sampleCollaborators cordonedNode (mkUsage cordonedNode {[ResourceCPU := 90%Q]})
  = false ∧
  destinationFilter sampleCollaborators cordonedNode
    (mkUsage cordonedNode {[ResourceCPU := 90%Q]}) = false.
Proof.
  apply (proj2 (proj1 (neither_filter_iff sampleCollaborators cordonedNode
                         (mkUsage cordonedNode {[ResourceCPU := 90%Q]})))).
  split; reflexivity.
Defined.

Lemma HighNodeUtilization_evicts_iff_witness :
  ∃ h', HighNodeUtilization sampleCollaborators canonical_order sampleStrategy
          [idleNode; busyNode] (sampleHeap 0) = Some (Evicted [mkPod "idle"], h') ∧
        (0 < length (classified sampleCollaborators h' [idleNode; busyNode]
                       (Some 1%positive) (Some 4%positive)).2)%nat.
Proof.
  eexists. split; [vm_compute; reflexivity|].
  eapply (proj1 (proj1 (HighNodeUtilization_evicts_iff sampleCollaborators canonical_order
            sampleStrategy [idleNode; busyNode] (sampleHeap 0) (Evicted [mkPod "idle"]) _
            (mkParams (Some 1%positive) false) 1%positive
            (mkThresholds false (Some 2%positive) (Some 4%positive) 0) 0%Z
            _ _ _ _ _ _))).
  by eexists.
  Unshelve.
  - vm_compute. reflexivity.
  - exact I.
  - reflexivity.
  - reflexivity.
  - vm_compute. reflexivity.
  - reflexivity.
Defined.

Lemma HighNodeUtilization_late_guards_witness :
  ∃ h', HighNodeUtilization sampleCollaborators canonical_order sampleStrategy
          [idleNode] (sampleHeap 0) = Some (AllNodesUnderutilized, h') ∧
        length (classified sampleCollaborators h' [idleNode]
                  (Some 1%positive) (Some 4%positive)).1 = length [idleNode].
Proof.
  eexists. split; [vm_compute; reflexivity|].
  eapply (proj1 (proj1 (HighNodeUtilization_late_guards sampleCollaborators canonical_order
            sampleStrategy [idleNode] (sampleHeap 0) AllNodesUnderutilized _
            (mkParams (Some 1%positive) false) 1%positive
            (mkThresholds false (Some 2%positive) (Some 4%positive) 0)
            _ _ _ _ _))).
  reflexivity.
  Unshelve.
  - vm_compute. reflexivity.
  - exact I.
  - reflexivity.
  - reflexivity.
  - vm_compute. reflexivity.
Defined.

Lemma HighNodeUtilization_failed_checks_keep_store_witness :
  HighNodeUtilization sampleCollaborators canonical_order nilParamsStrategy
    [idleNode; busyNode] (sampleHeap 0)
  = Some (InvalidParameters "NodeResourceUtilizationThresholds not set", sampleHeap 0).
Proof.
  assert (∃ h', HighNodeUtilization sampleCollaborators canonical_order nilParamsStrategy
                  [idleNode; busyNode] (sampleHeap 0)
                = Some (InvalidParameters "NodeResourceUtilizationThresholds not set", h'))
    as [h' Hrun] by (eexists; reflexivity).
  rewrite Hrun. do 2 f_equal.
  apply (HighNodeUtilization_failed_checks_keep_store sampleCollaborators canonical_order
           nilParamsStrategy [idleNode; busyNode] (sampleHeap 0) _ h' Hrun).
  eexists. left. reflexivity.
Defined.

Lemma HighNodeUtilization_invalid_config_effect_witness :
  ∃ h' t,
    HighNodeUtilization sampleCollaborators canonical_order sampleStrategy
      [idleNode; busyNode] nilThresholdsHeap
    = Some (InvalidConfig "thresholds config is not valid: no resource threshold is configured",
            h') ∧
    TargetThresholds <$> cfgs h' !! 1%positive = Some (Some t) ∧
    maps h' !! t = Some ∅ ∧
    maps h' !! 2%positive = Some {[ResourceCPU := 50%Q]}.
Proof.
  assert (∃ h', HighNodeUtilization sampleCollaborators canonical_order sampleStrategy
                  [idleNode; busyNode] nilThresholdsHeap
                = Some (InvalidConfig
                          "thresholds config is not valid: no resource threshold is configured",
                        h'))
    as [h' Hrun] by (eexists; vm_compute; reflexivity).
  destruct (HighNodeUtilization_invalid_config_effect sampleCollaborators canonical_order
              sampleStrategy [idleNode; busyNode] nilThresholdsHeap _ h' Hrun)
    as (e & params & c & cfg & t & _ & Hs & Hn & Hc & _ & _ & _ & Hcfg & Hempty & Hold & _).
  injection Hs as <-. injection Hn as <-.
  exists h', t. split_and!; [done| |done|].
  - by rewrite Hcfg.
  - apply Hold. reflexivity.
Defined.

Lemma HighNodeUtilization_fills_thresholds_witness :
  ∃ o h' lowMap,
    HighNodeUtilization sampleCollaborators canonical_order sampleStrategy
      [idleNode; busyNode] (sampleHeap 0) = Some (o, h') ∧
    maps h' !! 2%positive = Some lowMap ∧
    lowMap !! ResourceCPU = Some 20%Q ∧
    lowMap !! ResourcePods = Some MaxResourcePercentage.
Proof.
  assert (∃ h', HighNodeUtilization sampleCollaborators canonical_order sampleStrategy
                  [idleNode; busyNode] (sampleHeap 0) = Some (Evicted [mkPod "idle"], h'))
    as [h' Hrun] by (eexists; vm_compute; reflexivity).
  destruct (HighNodeUtilization_fills_thresholds sampleCollaborators canonical_order
              sampleStrategy [idleNode; busyNode] (sampleHeap 0) _ h'
              (mkParams (Some 1%positive) false) 1%positive
              (mkThresholds false (Some 2%positive) (Some 3%positive) 0) 2%positive
              {[ResourceCPU := 20%Q; extendedResource := 30%Q]} Hrun)
    as (cfg' & lowMap & _ & _ & Hl & Hentries).
  - exact I.
  - reflexivity.
  - reflexivity.
  - reflexivity.
  - reflexivity.
  - reflexivity.
  - exists (Evicted [mkPod "idle"]), h', lowMap. split_and!; [done|done| |].
    + rewrite Hentries. reflexivity.
    + rewrite Hentries. reflexivity.
Defined.

Lemma HighNodeUtilization_frame_witness :
  ∃ o h',
    HighNodeUtilization sampleCollaborators canonical_order sampleStrategy
      [idleNode; busyNode] (sampleHeap 0) = Some (o, h') ∧
    maps h' !! 3%positive = Some {[ResourceCPU := 50%Q]}.
Proof.
  assert (∃ h', HighNodeUtilization sampleCollaborators canonical_order sampleStrategy
                  [idleNode; busyNode] (sampleHeap 0) = Some (Evicted [mkPod "idle"], h'))
    as [h' Hrun] by (eexists; vm_compute; reflexivity).
  exists (Evicted [mkPod "idle"]), h'. split; [done|].
  apply (proj2 (HighNodeUtilization_frame sampleCollaborators canonical_order
                  sampleStrategy [idleNode; busyNode] (sampleHeap 0) _ h' Hrun)).
  - reflexivity.
  - intros params c cfg [= <-] [= <-] [= <-]. discriminate.
Defined.

Lemma HighNodeUtilization_returns_witness :
  is_Some (HighNodeUtilization sampleCollaborators canonical_order sampleStrategy
             [idleNode; busyNode] (sampleHeap 0)).
Proof.
  apply (HighNodeUtilization_returns sampleCollaborators canonical_order sampleStrategy
           [idleNode; busyNode] (sampleHeap 0) (mkParams (Some 1%positive) false) 1%positive
           (mkThresholds false (Some 2%positive) (Some 3%positive) 0) 2%positive).
  - reflexivity.
  - reflexivity.
  - reflexivity.
  - reflexivity.
  - eexists. reflexivity.
Defined.

Lemma HighNodeUtilization_panics_iff_witness :
  HighNodeUtilization lenientCollaborators canonical_order sampleStrategy
    [idleNode; busyNode] nilThresholdsHeap = None.
Proof.
  apply (proj2 (HighNodeUtilization_panics_iff lenientCollaborators canonical_order
                  sampleStrategy [idleNode; busyNode] nilThresholdsHeap
                  ltac:(intros params c [= <-] [= <-]; eexists; reflexivity)
                  ltac:(intros params c cfg low [= <-] [= <-] [= <-]; discriminate))).
  split_and!; [reflexivity|eexists; reflexivity|].
  right. eexists. split; [reflexivity|]. right. eexists _, _.
  split_and!; reflexivity.
Defined.
